(** * plural: choosing the null / singular / plural form of a word

    A shallow embedding of [plural/__init__.py] (the module-level table
    [regpl] and the functions [set] and [shortcuts]) together with the
    properties of the variant resolver that follow from it.

    Python values are embedded as the inductive [pyval], exceptions as a
    small error monad [py], the returned dictionary as a [gmap] from
    strings to strings and the module-level dictionary [regpl] as an
    association list in insertion order, which is the order Python
    iterates it in. *)

From Stdlib Require Import ZArith Lia Bool Ascii String.
From Stdlib Require Import Decimal DecimalString DecimalNat.
From Stdlib Require Import SpecFloat.
From stdpp Require Import base list strings gmap fin_maps.

Open Scope string_scope.
Open Scope list_scope.

(** ** Python values and exceptions *)

(** The values a caller can put in a request tuple.  A float is kept as
    the [spec_float] of the standard library: only its comparison with
    the integers 0 and 1 is ever used. *)
#[warnings="-register-all"]
Inductive pyval : Type :=
  | PyNone
  | PyBool (b : bool)
  | PyInt (z : Z)
  | PyFloat (f : spec_float)
  | PyStr (s : string)
  | PyTuple (items : list pyval).

Inductive pyexn : Type :=
  | IndexError
  | TypeError
  | ValueError
  | AttributeError.

(** A computation either returns or raises. *)
Inductive py (A : Type) : Type :=
  | Ret (a : A)
  | Raise (e : pyexn).
Arguments Ret {A} a.
Arguments Raise {A} e.

(** [py] is used through stdpp's monad notation [x ← c; k]. *)
#[global] Instance py_ret : MRet py := fun A a => Ret a.
#[global] Instance py_bind : MBind py := fun A B k c =>
  match c with
  | Ret a => k a
  | Raise e => Raise e
  end.

(** [for x in xs: acc = body(acc, x)], stopping at the first exception. *)
Fixpoint py_for {A B} (body : B -> A -> py B) (xs : list A) (acc : B) : py B :=
  match xs with
  | [] => Ret acc
  | x :: xs' => acc' ← body acc x; py_for body xs' acc'
  end.

(** ** Builtins used by the module *)

(** [x == k] for an integer literal [k].  Python compares a [bool] by its
    integer value and a [float] by its exact numeric value; values of the
    other types are never equal to an integer. *)
Definition float_eq_int (f : spec_float) (k : Z) : bool :=
  match f with
  | S754_zero _ => (k =? 0)%Z
  | S754_finite sg m e =>
      let v := if sg then Z.neg m else Z.pos m in
      if (0 <=? e)%Z then (v * 2 ^ e =? k)%Z else (v =? k * 2 ^ (- e))%Z
  | S754_infinity _ | S754_nan => false
  end.

Definition py_eq_int (x : pyval) (k : Z) : bool :=
  match x with
  | PyInt z => (z =? k)%Z
  | PyBool b => (Z.b2z b =? k)%Z
  | PyFloat f => float_eq_int f k
  | PyNone | PyStr _ | PyTuple _ => false
  end.

(** [x in (k1, k2, ...)] for a tuple of integer literals. *)
Definition py_in (x : pyval) (ks : list Z) : bool := existsb (py_eq_int x) ks.

(** What a value is worth as a subscript: integers and booleans have an
    [__index__], the other types raise [TypeError]. *)
Definition py_index (i : pyval) : py Z :=
  match i with
  | PyInt z => Ret z
  | PyBool b => Ret (Z.b2z b)
  | PyNone | PyFloat _ | PyStr _ | PyTuple _ => Raise TypeError
  end.

(** Position designated by a subscript in a sequence of [len] items;
    negative subscripts count from the end. *)
Definition norm_index (len : nat) (z : Z) : py nat :=
  let n := Z.of_nat len in
  if ((0 <=? z) && (z <? n))%Z then Ret (Z.to_nat z)
  else if ((- n <=? z) && (z <? 0))%Z then Ret (Z.to_nat (n + z))
  else Raise IndexError.

(** [l[i]] on a list or tuple. *)
Definition getitem {A} (l : list A) (i : pyval) : py A :=
  z ← py_index i;
  k ← norm_index (length l) z;
  match l !! k with
  | Some x => Ret x
  | None => Raise IndexError
  end.

(** [l[i] = x] on a list. *)
Definition setitem {A} (l : list A) (i : pyval) (x : A) : py (list A) :=
  z ← py_index i;
  k ← norm_index (length l) z;
  Ret (<[k := x]> l).

(** [s.upper()] for a string of ASCII characters: the letters a-z become
    A-Z, the other characters stay.  The strings of [regpl] are ASCII; on
    other text [str.upper] follows Unicode and this function does not
    describe it, so a statement about a table that is not [regpl] assumes
    ASCII entries ([ascii_entry]). *)
Definition upper_ascii (c : ascii) : ascii :=
  let n := nat_of_ascii c in
  if ((97 <=? n) && (n <=? 122))%nat then ascii_of_nat (n - 32) else c.

Fixpoint upper (s : string) : string :=
  match s with
  | EmptyString => EmptyString
  | String c s' => String (upper_ascii c) (upper s')
  end.

(** [str(n)] for the index given by [enumerate]. *)
Definition str (n : nat) : string := NilEmpty.string_of_uint (Nat.to_uint n).

Fixpoint string_drop (n : nat) (s : string) : string :=
  match n, s with
  | S n', String _ s' => string_drop n' s'
  | _, _ => s
  end.

(** The text before and after the first occurrence of [sep] in [s]
    ([s.partition(sep)] without its middle component), if there is one. *)
Fixpoint cut (sep s : string) : option (string * string) :=
  if String.prefix sep s then Some (EmptyString, string_drop (String.length sep) s)
  else match s with
       | EmptyString => None
       | String c s' =>
           match cut sep s' with
           | Some (a, b) => Some (String c a, b)
           | None => None
           end
       end.

Fixpoint split_max (maxsplit : nat) (sep s : string) : list string :=
  match maxsplit with
  | O => [s]
  | S k =>
      match cut sep s with
      | Some (a, b) => a :: split_max k sep b
      | None => [s]
      end
  end.

(** [s.split(sep, maxsplit)]; an empty separator is refused. *)
Definition split (s sep : string) (maxsplit : nat) : py (list string) :=
  match sep with
  | EmptyString => Raise ValueError
  | String _ _ => Ret (split_max maxsplit sep s)
  end.

(** ** The module *)

(** The dictionary returned by [set]. *)
Abbreviation dict := (gmap string string).

(** [regpl], the shortcuts: predefined null / singular / plural tuples. *)
Definition regpl : list (string * list string) :=
  [ ("s", ["s"; ""; "s"]);
    ("es", ["es"; ""; "es"]);
    ("y", ["ies"; "y"; "ies"]);
    ("ies", ["ies"; "y"; "ies"]);
    ("this", ["these"; "this"; "these"]);
    ("these", ["these"; "this"; "these"]);
    ("that", ["those"; "that"; "those"]);
    ("those", ["those"; "that"; "those"]);
    ("is", ["are"; "is"; "are"]);
    ("are", ["are"; "is"; "are"]) ].

(** Lines 228-230: which one of null / singular / plural is needed.  The
    test value itself is kept when it compares equal to 0 or 1. *)
Definition form_of (test : pyval) : pyval :=
  if negb (py_in test [0; 1]%Z) then PyInt 2 else test.

(** Lines 235-236, the body of [for r in regpl]; the entry carries [r]
    and [regpl[r]]. *)
Definition shortcut_step (n : string) (form : pyval) (result : dict)
    (entry : string * list string) : py dict :=
  let '(r, forms) := entry in
  x ← getitem forms form;
  let result := <["P" +:+ n +:+ r := x]> result in
  y ← getitem forms form;
  Ret (<["P" +:+ n +:+ upper r := upper y]> result).

(** Lines 241-247: bring the split fields to null / singular / plural. *)
Definition normalize (s : list string) : py (list string) :=
  s ← (if (length s =? 2)%nat then
         x ← getitem s (PyInt 1);
         let s := s ++ [x] in
         x ← getitem s (PyInt 0);
         s ← setitem s (PyInt 1) x;
         x ← getitem s (PyInt 2);
         setitem s (PyInt 0) x
       else Ret s);
  if (length s =? 1)%nat then
    x ← getitem s (PyInt 0);
    let s := s ++ [x] in
    x ← getitem s (PyInt 0);
    Ret (s ++ [x])
  else Ret s.

(** Lines 240-248, the body of [for p in v[1:]]. *)
Definition candidate_step (sep n : string) (form : pyval) (result : dict)
    (p : pyval) : py dict :=
  match p with
  | PyStr p =>
      s ← split p sep 2;
      s ← normalize s;
      x ← getitem s form;
      Ret (<["P" +:+ n +:+ sep +:+ p := x]> result)
  | PyNone | PyBool _ | PyInt _ | PyFloat _ | PyTuple _ => Raise AttributeError
  end.

(** Lines 225-248, the body of [for n, v in enumerate(args)]. *)
Definition set_body (cat : list (string * list string)) (sep : string)
    (i : nat) (v : list pyval) (result : dict) : py dict :=
  let n := str i in
  test ← getitem v (PyInt 0);
  let form := form_of test in
  result ← py_for (shortcut_step n form) cat result;
  py_for (candidate_step sep n form) (drop 1 v) result.

Fixpoint set_loop (cat : list (string * list string)) (sep : string)
    (i : nat) (args : list (list pyval)) (result : dict) : py dict :=
  match args with
  | [] => Ret result
  | v :: args' =>
      result ← set_body cat sep i v result;
      set_loop cat sep (S i) args' result
  end.

(** Lines 217-220: the separator is the keyword argument [sep] when the
    caller gave one. *)
Definition sep_of (kw_sep : option string) : string :=
  match kw_sep with Some sep => sep | None => "|" end.

(** [set]: [args] are the positional arguments, [cat] is the module's
    [regpl] and [kw_sep] the keyword argument [sep] when the caller gave
    one. *)
Definition set (cat : list (string * list string))
    (args : list (list pyval)) (kw_sep : option string) : py dict :=
  let sep := sep_of kw_sep in
  set_loop cat sep 0 args ∅.

(** The module's state: its table and what has been printed. *)
Record world : Type := World {
  w_regpl : list (string * list string);
  w_stdout : list string
}.

Definition print (line : string) (w : world) : world :=
  {| w_regpl := w_regpl w; w_stdout := w_stdout w ++ [line] |}.

(** ['[{}: {}, {}, {}]'.format(a, b, c, d)] *)
Definition tpl_format (a b c d : string) : string :=
  "[" +:+ a +:+ ": " +:+ b +:+ ", " +:+ c +:+ ", " +:+ d +:+ "]".

(** Lines 260-262, the body of [for r in regpl] in [shortcuts]. *)
Definition shortcuts_step (w : world) (entry : string * list string) : py world :=
  let '(r, forms) := entry in
  a ← getitem forms (PyInt 0);
  b ← getitem forms (PyInt 1);
  c ← getitem forms (PyInt 2);
  let w := print (tpl_format r a b c) w in
  a ← getitem forms (PyInt 0);
  b ← getitem forms (PyInt 1);
  c ← getitem forms (PyInt 2);
  Ret (print (tpl_format (upper r) (upper a) (upper b) (upper c)) w).

Definition header : string :=
  "Available shortcuts: [shortcut: null, singular, plural]".

(** [shortcuts()]: the value returned and the state it leaves. *)
Definition shortcuts (w : world) : py (pyval * world) :=
  let w := print header w in
  w ← py_for shortcuts_step (w_regpl w) w;
  Ret (PyNone, w).

Definition initial_world : world := {| w_regpl := regpl; w_stdout := [] |}.

(** The floats 1.0 and 0.0 (binary64: 2^52 * 2^-52, and +0). *)
Definition float_one : spec_float := S754_finite false 4503599627370496 (-52).
Definition float_zero : spec_float := S754_zero false.

(** ** Categories *)

(** The three grammatical numbers; a category is the position of its
    form in a null / singular / plural tuple. *)
Inductive category : Type := ZERO | SINGULAR | PLURAL.

Definition cat_pos (c : category) : nat :=
  match c with ZERO => 0 | SINGULAR => 1 | PLURAL => 2 end.

(** The category a subscript [form] designates in a tuple of three
    forms, when it can subscript at all. *)
Definition form_category (form : pyval) : option category :=
  match py_index form with
  | Ret 0%Z => Some ZERO
  | Ret 1%Z => Some SINGULAR
  | Ret 2%Z => Some PLURAL
  | _ => None
  end.

(** The category [set] works with for the test value [q]: the one the
    [form] it computes designates. *)
Definition classify (q : pyval) : option category := form_category (form_of q).

(** The category in the words of the data model: ZERO when the test
    value equals 0, SINGULAR when it equals 1, PLURAL otherwise.
    [classify_spec] compares it with [classify]. *)
Definition category_of (q : pyval) : category :=
  if py_eq_int q 0 then ZERO else if py_eq_int q 1 then SINGULAR else PLURAL.

(** Floats that compare equal to 0 or 1 (0.0, -0.0 and 1.0). *)
Definition float_0_or_1 (q : pyval) : bool :=
  match q with
  | PyFloat f => float_eq_int f 0 || float_eq_int f 1
  | _ => false
  end.

(** A request tuple with a boolean test value replaced by the integer
    it is worth. *)
Definition bool_as_int (v : list pyval) : list pyval :=
  match v with
  | PyBool b :: rest => PyInt (Z.b2z b) :: rest
  | _ => v
  end.

(** ** Entries written to the result *)

(** The form of [c] in a tuple of forms. *)
Definition pick (c : category) (forms : list string) : string := forms !!! cat_pos c.

Definition len3 (e : string * list string) : Prop := length e.2 = 3.

(** The table with the capitalized version of every shortcut next to it. *)
Definition effective (cat : list (string * list string)) : list (string * list string) :=
  flat_map (fun e => [(e.1, e.2); (upper e.1, upper <$> e.2)]) cat.

(** Fields brought to null / singular / plural: what [normalize] returns. *)
Definition arrange (s : list string) : list string :=
  match s with
  | [a] => [a; a; a]
  | [a; b] => [b; a; b]
  | _ => s
  end.

(** The fields of a candidate string, arranged. *)
Definition fields3 (sep p : string) : list string := arrange (split_max 2 sep p).

(** ['P' + n + rest], the shape of every key. *)
Definition key (n rest : string) : string := "P" +:+ n +:+ rest.

(** A request tuple made of a test value and candidate strings, and the
    positional arguments of a call made of such tuples. *)
Definition request (q : pyval) (cands : list string) : list pyval :=
  q :: (PyStr <$> cands).

Definition tuples (reqs : list (pyval * list string)) : list (list pyval) :=
  (fun r => request r.1 r.2) <$> reqs.

(** The assignments [result[k] = x] of one request, in program order. *)
Definition shortcut_writes (cat : list (string * list string)) (n : string)
    (c : category) : list (string * string) :=
  (fun e => (key n e.1, pick c e.2)) <$> effective cat.

Definition candidate_writes (sep n : string) (c : category)
    (cands : list string) : list (string * string) :=
  (fun p => (key n (sep +:+ p), pick c (fields3 sep p))) <$> cands.

Definition request_writes (cat : list (string * list string)) (sep : string)
    (i : nat) (c : category) (cands : list string) : list (string * string) :=
  shortcut_writes cat (str i) c ++ candidate_writes sep (str i) c cands.

(** The assignments of a whole call, for requests given by their
    category and candidate strings, the first of them at index [i]. *)
Fixpoint all_writes (cat : list (string * list string)) (sep : string)
    (i : nat) (rs : list (category * list string)) : list (string * string) :=
  match rs with
  | [] => []
  | r :: rs' => request_writes cat sep i r.1 r.2 ++ all_writes cat sep (S i) rs'
  end.

Definition resolved (reqs : list (pyval * list string)) : list (category * list string) :=
  (fun r => (category_of r.1, r.2)) <$> reqs.

(** The dictionary after a list of assignments. *)
Definition apply_writes (ws : list (string * string)) (m : dict) : dict :=
  foldl (fun m kv => <[kv.1 := kv.2]> m) m ws.

(** The line [shortcuts] prints for an entry of the table. *)
Definition shortcut_line (e : string * list string) : string :=
  tpl_format e.1 (pick ZERO e.2) (pick SINGULAR e.2) (pick PLURAL e.2).

(** ** Digits and separators *)

(** Decimal digits and the number they spell. *)
Definition is_digit (c : ascii) : bool :=
  let n := nat_of_ascii c in ((48 <=? n) && (n <=? 57))%nat.

Fixpoint all_digits (s : string) : bool :=
  match s with
  | EmptyString => true
  | String c s' => is_digit c && all_digits s'
  end.

Fixpoint digits_value (acc : nat) (s : string) : nat :=
  match s with
  | EmptyString => acc
  | String c s' => digits_value (10 * acc + (nat_of_ascii c - 48)) s'
  end.

(** Names that cannot be mistaken for the end of an index. *)
Definition starts_letter (s : string) : bool :=
  match s with
  | EmptyString => false
  | String c _ => negb (is_digit c)
  end.

(** A separator is bordered when one of its proper non-empty suffixes is
    also one of its prefixes: an occurrence may then start before the end
    of the text that precedes it. *)
Definition bordered (sep : string) : bool :=
  existsb (fun k => String.prefix (string_drop k sep) sep)
          (seq 1 (String.length sep - 1)).

(** ** More vocabulary for the properties *)

(** [sep.join(fields)] *)
Fixpoint join (sep : string) (fields : list string) : string :=
  match fields with
  | [] => EmptyString
  | [f] => f
  | f :: fields' => f +:+ sep +:+ join sep fields'
  end.

Definition is_str (x : pyval) : bool :=
  match x with
  | PyStr _ => true
  | _ => false
  end.

(** Text made of ASCII characters only, and table entries made of such
    text: where [upper] is [str.upper]. *)
Fixpoint is_ascii (s : string) : bool :=
  match s with
  | EmptyString => true
  | String c s' => (nat_of_ascii c <? 128)%nat && is_ascii s'
  end.

Definition ascii_entry (e : string * list string) : Prop :=
  is_ascii e.1 = true /\ Forall (fun f => is_ascii f = true) e.2.

(** A request tuple with its test value replaced by the form [set]
    computes from it: the value itself when it equals 0 or 1, the integer
    2 otherwise. *)
Definition with_form (v : list pyval) : list pyval :=
  match v with
  | [] => []
  | q :: rest => form_of q :: rest
  end.

(** ** Strings *)

Lemma app_nil_s (t : string) : "" +:+ t = t.
Proof. reflexivity. Qed.

Lemma app_cons_s (c : ascii) (s t : string) : String c s +:+ t = String c (s +:+ t).
Proof. reflexivity. Qed.

Ltac sapp := rewrite ?app_cons_s, ?app_nil_s in *.

Lemma app_empty_r (s : string) : s +:+ "" = s.
Proof. induction s as [|c s IH]; sapp; congruence. Qed.

Lemma app_assoc_s (a b c : string) : (a +:+ b) +:+ c = a +:+ b +:+ c.
Proof. induction a as [|x a IH]; sapp; congruence. Qed.

Lemma length_app_s (a b : string) :
  String.length (a +:+ b) = String.length a + String.length b.
Proof. induction a as [|x a IH]; sapp; simpl; congruence. Qed.

Lemma drop_app_s (a b : string) : string_drop (String.length a) (a +:+ b) = b.
Proof. induction a as [|x a IH]; sapp; simpl; [by destruct b | done]. Qed.

Lemma prefix_app_s (a b : string) : String.prefix a (a +:+ b) = true.
Proof.
  induction a as [|x a IH]; sapp; simpl; [by destruct b |].
  destruct (ascii_dec x x); [done | congruence].
Qed.

Lemma prefix_inv_s (a s : string) :
  String.prefix a s = true -> s = a +:+ string_drop (String.length a) s.
Proof.
  revert s. induction a as [|x a IH]; intros s H; simpl in *.
  - by sapp.
  - destruct s as [|y s]; simpl in H; [done |].
    destruct (ascii_dec x y) as [->|]; [|done].
    sapp. f_equal. by apply IH.
Qed.

(** A prefix found in [x +:+ r] that fits in [x] is a prefix of [x]. *)
Lemma prefix_shorten (a x r : string) :
  String.prefix a (x +:+ r) = true ->
  String.length a <= String.length x ->
  String.prefix a x = true.
Proof.
  revert x. induction a as [|c a IH]; intros x H Hlen.
  - by destruct x.
  - destruct x as [|y x]; sapp; simpl in *; [lia |].
    destruct (ascii_dec c y); [|done].
    apply IH; [done | lia].
Qed.

Lemma cut_here (sep s : string) :
  String.prefix sep s = true ->
  cut sep s = Some ("", string_drop (String.length sep) s).
Proof. intros H. destruct s; unfold cut; fold cut; by rewrite H. Qed.

Lemma cut_later (sep : string) (c : ascii) (s : string) :
  String.prefix sep (String c s) = false ->
  cut sep (String c s) =
    match cut sep s with Some (a, b) => Some (String c a, b) | None => None end.
Proof. intros H. unfold cut; fold cut. by rewrite H. Qed.

Lemma cut_empty (sep : string) : String.prefix sep "" = false -> cut sep "" = None.
Proof. intros H. unfold cut. by rewrite H. Qed.

Lemma cut_sound (sep s a b : string) :
  cut sep s = Some (a, b) -> s = a +:+ sep +:+ b.
Proof.
  revert a b. induction s as [|c s IH]; intros a b.
  - destruct (String.prefix sep "") eqn:Hp.
    + rewrite cut_here by done. intros [= <- <-]. by apply prefix_inv_s in Hp.
    + by rewrite cut_empty.
  - destruct (String.prefix sep (String c s)) eqn:Hp.
    + rewrite cut_here by done. intros [= <- <-]. by apply prefix_inv_s in Hp.
    + rewrite cut_later by done.
      destruct (cut sep s) as [[a' b']|] eqn:Hc; [|done].
      intros [= <- <-]. sapp. f_equal. by apply IH.
Qed.

(** When the first occurrence of [sep] in [z +:+ sep] is the appended
    one, cutting [z +:+ sep +:+ rest] gives back [z] and [rest]. *)
Lemma cut_first (sep z rest : string) :
  String.index 0 sep (z +:+ sep) = Some (String.length z) ->
  cut sep (z +:+ sep +:+ rest) = Some (z, rest).
Proof.
  induction z as [|c z IH]; intros H; sapp.
  - rewrite cut_here by apply prefix_app_s. by rewrite drop_app_s.
  - cbn [String.index] in H.
    destruct (String.prefix sep (String c (z +:+ sep))) eqn:Hp; [done |].
    destruct (String.index 0 sep (z +:+ sep)) eqn:Hi; [|done].
    injection H as ->.
    rewrite cut_later, IH; [done.. |].
    destruct (String.prefix sep (String c (z +:+ sep +:+ rest))) eqn:Hp2; [|done].
    rewrite <- app_assoc_s, <- app_cons_s in Hp2.
    apply prefix_shorten in Hp2; [congruence |].
    cbn [String.length]. rewrite length_app_s. lia.
Qed.

Lemma prefix_overlap (a x b : string) :
  String.prefix a (x +:+ b) = true ->
  String.length x <= String.length a ->
  String.prefix (string_drop (String.length x) a) b = true.
Proof.
  revert a. induction x as [|c x IH]; intros a H Hlen; sapp; [done|].
  destruct a as [|c' a]; simpl in *; [lia|].
  destruct (ascii_dec c' c); [|done].
  apply IH; [done | lia].
Qed.

Lemma index_none_cons (sep : string) (c : ascii) (z : string) :
  String.index 0 sep (String c z) = None ->
  String.prefix sep (String c z) = false /\ String.index 0 sep z = None.
Proof.
  cbn [String.index].
  destruct (String.prefix sep (String c z)); [done|].
  by destruct (String.index 0 sep z).
Qed.

(** For a separator without border, a text that does not contain the
    separator meets it first where it is appended. *)
Lemma unbordered_first (sep z : string) :
  sep <> "" -> bordered sep = false ->
  String.index 0 sep z = None ->
  String.index 0 sep (z +:+ sep) = Some (String.length z).
Proof.
  intros Hsep Hb. induction z as [|c z IH]; intros Hz; sapp.
  - destruct sep as [|x sep]; [done|].
    cbn [String.index]. rewrite <- (app_empty_r (String x sep)) at 2.
    by rewrite prefix_app_s.
  - apply index_none_cons in Hz as [Hp Hz].
    cbn [String.index String.length]. rewrite (IH Hz).
    destruct (String.prefix sep (String c (z +:+ sep))) eqn:Hp2; [|done].
    exfalso. rewrite <- app_cons_s in Hp2.
    destruct (le_lt_dec (String.length sep) (String.length (String c z))) as [Hle|Hlt].
    + apply prefix_shorten in Hp2; [congruence | done].
    + apply prefix_overlap in Hp2; [|lia].
      apply not_true_iff_false in Hb. apply Hb.
      unfold bordered. apply existsb_exists.
      exists (String.length (String c z)). split; [|done].
      apply in_seq. cbn [String.length] in *. lia.
Qed.

Lemma single_char_unbordered (c : ascii) : bordered (String c "") = false.
Proof. reflexivity. Qed.

(** ** Subscripts and categories *)

Lemma form_category_index (form : pyval) (c : category) :
  form_category form = Some c -> py_index form = Ret (Z.of_nat (cat_pos c)).
Proof.
  unfold form_category. destruct (py_index form) as [z|e]; [|done].
  destruct z as [|[[]|[]|]|]; try done; by intros [= <-].
Qed.

Lemma getitem_pick (forms : list string) (form : pyval) (c : category) :
  form_category form = Some c -> length forms = 3 ->
  getitem forms form = Ret (pick c forms).
Proof.
  intros Hc Hlen. unfold getitem. rewrite (form_category_index _ _ Hc).
  destruct forms as [|x [|y [|z [|]]]]; try done.
  by destruct c.
Qed.

Lemma classify_spec (q : pyval) :
  classify q = if float_0_or_1 q then None else Some (category_of q).
Proof.
  unfold classify, form_of, category_of, py_in. cbn [existsb].
  destruct q as [| [] | z | f | |]; try done.
  - cbn [py_eq_int float_0_or_1].
    destruct (Z.eqb_spec z 0) as [->|]; [done|].
    by destruct (Z.eqb_spec z 1) as [->|].
  - cbn [py_eq_int float_0_or_1].
    destruct (float_eq_int f 0) eqn:E0; [done|].
    by destruct (float_eq_int f 1) eqn:E1.
Qed.

Lemma classify_usable (q : pyval) :
  float_0_or_1 q = false -> classify q = Some (category_of q).
Proof. intros H. by rewrite classify_spec, H. Qed.

(** ** The loops as lists of assignments *)

Lemma regpl_len3 : Forall len3 regpl.
Proof. repeat constructor. Qed.

Lemma upper_pick (c : category) (forms : list string) :
  length forms = 3 -> pick c (upper <$> forms) = upper (pick c forms).
Proof. destruct forms as [|x [|y [|z [|]]]]; try done. by destruct c. Qed.

Lemma apply_writes_app (ws1 ws2 : list (string * string)) (m : dict) :
  apply_writes (ws1 ++ ws2) m = apply_writes ws2 (apply_writes ws1 m).
Proof. apply foldl_app. Qed.

Lemma shortcuts_run (cat : list (string * list string)) (n : string)
    (form : pyval) (c : category) (result : dict) :
  form_category form = Some c -> Forall len3 cat ->
  py_for (shortcut_step n form) cat result
  = Ret (apply_writes (shortcut_writes cat n c) result).
Proof.
  intros Hc Hcat. revert result.
  induction Hcat as [|[r forms] cat Hlen _ IH]; intros result; [done|].
  unfold len3 in Hlen. cbn [snd] in Hlen. cbn [py_for shortcut_step]. rewrite (getitem_pick _ _ _ Hc Hlen).
  cbn [mbind py_bind]. rewrite IH.
  unfold shortcut_writes, effective. cbn [flat_map fmap list_fmap app fst snd].
  by rewrite (upper_pick _ _ Hlen).
Qed.

Lemma normalize_total (s : list string) : normalize s = Ret (arrange s).
Proof. by destruct s as [|a [|b [|c s]]]. Qed.

Lemma fields3_length (sep p : string) : length (fields3 sep p) = 3.
Proof.
  unfold fields3, arrange. cbn [split_max].
  destruct (cut sep p) as [[a b]|]; [|done].
  by destruct (cut sep b) as [[a' b']|].
Qed.

Lemma candidate_step_run (sep n : string) (form : pyval) (c : category)
    (result : dict) (p : string) :
  sep <> "" -> form_category form = Some c ->
  candidate_step sep n form result (PyStr p)
  = Ret (<[key n (sep +:+ p) := pick c (fields3 sep p)]> result).
Proof.
  intros Hsep Hc. unfold candidate_step, split.
  destruct sep as [|x sep]; [done|].
  cbn [mbind py_bind]. rewrite normalize_total. cbn [mbind py_bind].
  fold (fields3 (String x sep) p).
  by rewrite (getitem_pick _ _ _ Hc (fields3_length _ _)).
Qed.

Lemma candidates_run (sep n : string) (form : pyval) (c : category)
    (cands : list string) (result : dict) :
  sep <> "" -> form_category form = Some c ->
  py_for (candidate_step sep n form) (PyStr <$> cands) result
  = Ret (apply_writes (candidate_writes sep n c cands) result).
Proof.
  intros Hsep Hc. revert result.
  induction cands as [|p cands IH]; intros result; [done|].
  cbn [fmap list_fmap py_for]. rewrite (candidate_step_run _ _ _ _ _ _ Hsep Hc).
  cbn [mbind py_bind]. by rewrite IH.
Qed.

Lemma getitem_first (q : pyval) (rest : list pyval) :
  getitem (q :: rest) (PyInt 0) = Ret q.
Proof.
  unfold getitem, norm_index. cbn [py_index mbind py_bind length].
  by rewrite Nat2Z.inj_succ, (proj2 (Z.ltb_lt 0 _)) by lia.
Qed.

Lemma set_body_run (cat : list (string * list string)) (sep : string) (i : nat)
    (q : pyval) (cands : list string) (c : category) (result : dict) :
  Forall len3 cat -> classify q = Some c -> sep <> "" \/ cands = [] ->
  set_body cat sep i (request q cands) result
  = Ret (apply_writes (request_writes cat sep i c cands) result).
Proof.
  intros Hcat Hc Hsep. unfold set_body, request. rewrite getitem_first.
  cbn [mbind py_bind]. rewrite (shortcuts_run _ _ _ _ _ Hc Hcat).
  cbn [mbind py_bind drop]. unfold request_writes. rewrite apply_writes_app.
  destruct Hsep as [Hsep | ->].
  - by apply candidates_run.
  - done.
Qed.

Lemma set_loop_run (cat : list (string * list string)) (sep : string) (i : nat)
    (reqs : list (pyval * list string)) (result : dict) :
  Forall len3 cat ->
  Forall (fun r => float_0_or_1 r.1 = false) reqs ->
  sep <> "" \/ Forall (fun r => r.2 = []) reqs ->
  set_loop cat sep i (tuples reqs) result
  = Ret (apply_writes (all_writes cat sep i (resolved reqs)) result).
Proof.
  intros Hcat Hq. revert i result.
  induction Hq as [|[q cands] reqs Hq _ IH]; intros i result Hsep; [done|].
  cbn [tuples resolved fmap list_fmap set_loop all_writes fst snd] in *.
  rewrite (set_body_run _ _ _ _ _ (category_of q)); [| done | by apply classify_usable |].
  - cbn [mbind py_bind]. rewrite apply_writes_app. apply IH.
    destruct Hsep as [|H]; [by left | right]. by inversion H.
  - destruct Hsep as [|H]; [by left | right]. by inversion H.
Qed.

(** ** Reading the result *)

Lemma apply_writes_snoc (ws : list (string * string)) (k v : string) (m : dict) :
  apply_writes (ws ++ [(k, v)]) m = <[k := v]> (apply_writes ws m).
Proof. by rewrite apply_writes_app. Qed.

(** A key no assignment names keeps its value. *)
Lemma apply_writes_other (ws : list (string * string)) (k : string) (m : dict) :
  k ∉ ws.*1 -> apply_writes ws m !! k = m !! k.
Proof.
  revert m. induction ws as [|[k' v'] ws IH]; intros m Hk; [done|].
  cbn [apply_writes foldl fst snd]. fold (apply_writes ws (<[k' := v']> m)).
  rewrite fmap_cons in Hk. apply not_elem_of_cons in Hk as [Hne Hk].
  rewrite IH by done. by rewrite lookup_insert_ne.
Qed.

(** A key that is assigned, and always the same value, holds that value. *)
Lemma apply_writes_agree (ws : list (string * string)) (k v : string) (m : dict) :
  k ∈ ws.*1 -> (forall v', (k, v') ∈ ws -> v' = v) ->
  apply_writes ws m !! k = Some v.
Proof.
  revert m. induction ws as [|[k' v'] ws IH]; intros m Hk Hv.
  - by apply elem_of_nil in Hk.
  - cbn [apply_writes foldl fst snd]. fold (apply_writes ws (<[k' := v']> m)).
    destruct (decide (k ∈ ws.*1)) as [Hin|Hout].
    + apply IH; [done|]. intros v'' H. apply Hv. by right.
    + rewrite apply_writes_other by done.
      rewrite fmap_cons in Hk. apply elem_of_cons in Hk as [Hk|]; [|done].
      cbn [fst] in Hk. subst k'.
      rewrite lookup_insert_eq. f_equal. apply Hv. by left.
Qed.

(** The same, for the assignments that follow a given point. *)
Lemma apply_writes_last (ws1 ws2 ws3 : list (string * string)) (k v : string) (m : dict) :
  k ∈ ws2.*1 -> (forall v', (k, v') ∈ ws2 -> v' = v) -> k ∉ ws3.*1 ->
  apply_writes (ws1 ++ ws2 ++ ws3) m !! k = Some v.
Proof.
  intros Hin Hv Hout. rewrite !apply_writes_app, apply_writes_other by done.
  by apply apply_writes_agree.
Qed.

(** ** Indices in keys *)

Lemma string_of_uint_digits (d : uint) : all_digits (NilEmpty.string_of_uint d) = true.
Proof. induction d; simpl; auto. Qed.

Lemma string_of_uint_value (d : uint) (acc : nat) :
  digits_value acc (NilEmpty.string_of_uint d) = Nat.of_uint_acc d acc.
Proof.
  revert acc. induction d; intros acc; cbn [NilEmpty.string_of_uint digits_value Nat.of_uint_acc];
    [done | rewrite IHd, Nat.tail_mul_spec; f_equal; simpl; lia ..].
Qed.

Lemma str_digits (n : nat) : all_digits (str n) = true.
Proof. apply string_of_uint_digits. Qed.

Lemma str_value (n : nat) : digits_value 0 (str n) = n.
Proof.
  unfold str. rewrite string_of_uint_value. apply DecimalNat.Unsigned.of_to.
Qed.

Lemma digits_value_ge (s : string) (acc : nat) : acc <= digits_value acc s.
Proof.
  revert acc. induction s as [|c s IH]; intros acc; simpl; [lia|].
  etrans; [|apply IH]. lia.
Qed.

Lemma digits_value_app (a b : string) (acc : nat) :
  digits_value acc (a +:+ b) = digits_value (digits_value acc a) b.
Proof.
  revert acc. induction a as [|c a IH]; intros acc; sapp; [done|].
  cbn [digits_value]. apply IH.
Qed.

(** Digits followed by anything equal to other digits followed by a
    letter: the former digits begin the latter. *)
Lemma digits_prefix (a b x r : string) :
  all_digits a = true -> starts_letter r = true ->
  a +:+ x = b +:+ r -> exists t, b = a +:+ t.
Proof.
  revert b. induction a as [|d a IH]; intros b Ha Hr E.
  - by exists b.
  - sapp. cbn [all_digits] in Ha. apply andb_prop in Ha as [Hd Ha].
    destruct b as [|d' b]; sapp.
    + destruct r as [|c r]; [done|]. injection E as <- _.
      cbn [starts_letter] in Hr. by rewrite Hd in Hr.
    + injection E as <- E. destruct (IH b Ha Hr E) as [t ->]. by exists t.
Qed.

Lemma str_key_le (i j : nat) (x r : string) :
  starts_letter r = true -> str j +:+ x = str i +:+ r -> j <= i.
Proof.
  intros Hr E. destruct (digits_prefix _ _ _ _ (str_digits j) Hr E) as [t Ht].
  rewrite <- (str_value i), Ht, digits_value_app, str_value.
  apply digits_value_ge.
Qed.

Lemma key_inj (n a b : string) : key n a = key n b -> a = b.
Proof. unfold key. intros E. by simplify_eq. Qed.

(** A key of request [i] ending in a name is not assigned by a later
    request. *)
Lemma all_writes_later (cat : list (string * list string)) (sep : string)
    (i j : nat) (rs : list (category * list string)) (name : string) :
  starts_letter name = true -> i < j ->
  key (str i) name ∉ (all_writes cat sep j rs).*1.
Proof.
  intros Hname. revert j.
  induction rs as [|[c cands] rs IH]; intros j Hij; cbn [all_writes fst snd].
  - apply not_elem_of_nil.
  - rewrite fmap_app. apply not_elem_of_app. split; [|apply IH; lia].
    unfold request_writes, shortcut_writes, candidate_writes.
    rewrite fmap_app, <- !list_fmap_compose.
    apply not_elem_of_app. split; intros H;
      apply list_elem_of_fmap in H as (y & E & _); cbn in E;
      unfold key in E; sapp; injection E as E; symmetry in E;
      apply str_key_le in E; done || lia.
Qed.

Lemma all_writes_app (cat : list (string * list string)) (sep : string) (i : nat)
    (rs1 rs2 : list (category * list string)) :
  all_writes cat sep i (rs1 ++ rs2)
  = all_writes cat sep i rs1 ++ all_writes cat sep (i + length rs1) rs2.
Proof.
  revert i. induction rs1 as [|r rs1 IH]; intros i; cbn [app all_writes length].
  - by rewrite Nat.add_0_r.
  - rewrite IH, <- app_assoc. do 3 f_equal. lia.
Qed.

Lemma nodup_fst_functional {A B} (l : list (A * B)) (k : A) (v1 v2 : B) :
  NoDup l.*1 -> (k, v1) ∈ l -> (k, v2) ∈ l -> v1 = v2.
Proof.
  induction l as [|[k' v'] l IH]; intros Hnd H1 H2.
  - by apply elem_of_nil in H1.
  - rewrite fmap_cons in Hnd. apply NoDup_cons in Hnd as [Hk' Hnd].
    apply elem_of_cons in H1 as [H1|H1]; apply elem_of_cons in H2 as [H2|H2].
    + congruence.
    + injection H1 as -> _. destruct Hk'. apply list_elem_of_fmap. by exists (k', v2).
    + injection H2 as -> _. destruct Hk'. apply list_elem_of_fmap. by exists (k', v1).
    + by apply IH.
Qed.

Lemma effective_regpl_nodup : NoDup (effective regpl).*1.
Proof. apply (bool_decide_unpack _). by vm_compute. Qed.

Lemma effective_regpl_letters :
  Forall (fun e => starts_letter e.1 = true) (effective regpl).
Proof. apply (bool_decide_unpack _). by vm_compute. Qed.

Lemma effective_regpl_len3 : Forall len3 (effective regpl).
Proof. repeat constructor. Qed.

Lemma elem_of_effective (cat : list (string * list string)) (r : string)
    (forms : list string) :
  (r, forms) ∈ cat ->
  (r, forms) ∈ effective cat /\ (upper r, upper <$> forms) ∈ effective cat.
Proof.
  intros H. unfold effective. rewrite !list_elem_of_In, !in_flat_map.
  split; exists (r, forms); (split; [by apply list_elem_of_In | cbn; auto]).
Qed.

(** ** What a call returns *)

(** A call whose requests are well formed returns the dictionary built
    from their assignments. *)
Lemma set_run (reqs : list (pyval * list string)) (kw : option string) :
  Forall (fun r => float_0_or_1 r.1 = false) reqs ->
  sep_of kw <> "" \/ Forall (fun r => r.2 = []) reqs ->
  set regpl (tuples reqs) kw
  = Ret (apply_writes (all_writes regpl (sep_of kw) 0 (resolved reqs)) ∅).
Proof. intros Hq Hsep. unfold set. by apply set_loop_run; [apply regpl_len3 | |]. Qed.

(** The value under a shortcut key of request [i], when no candidate
    string of that request spells the same key. *)
Lemma lookup_shortcut (reqs : list (pyval * list string)) (sep : string)
    (i : nat) (q : pyval) (cands : list string) (name : string)
    (forms : list string) :
  reqs !! i = Some (q, cands) ->
  (name, forms) ∈ effective regpl ->
  (forall p, p ∈ cands -> sep +:+ p <> name) ->
  apply_writes (all_writes regpl sep 0 (resolved reqs)) ∅ !! key (str i) name
  = Some (pick (category_of q) forms).
Proof.
  intros Hi Hname Hfree.
  pose proof (proj1 (Forall_forall _ _) effective_regpl_letters _ Hname) as Hletter.
  cbn [fst] in Hletter.
  rewrite <- (take_drop_middle _ _ _ Hi). unfold resolved.
  rewrite fmap_app, fmap_cons, all_writes_app. cbn [all_writes fst snd].
  rewrite length_fmap, length_take_le by (apply lookup_lt_Some in Hi; lia).
  unfold request_writes at 1. rewrite <- app_assoc.
  apply apply_writes_last.
  - unfold shortcut_writes. rewrite <- list_fmap_compose.
    apply list_elem_of_fmap. by exists (name, forms).
  - intros v' Hv'. unfold shortcut_writes in Hv'.
    apply list_elem_of_fmap in Hv' as ([name' forms'] & E & Hin).
    apply pair_equal_spec in E as [E ->].
    cbn [fst snd] in *. apply key_inj in E as <-.
    f_equal. by apply (nodup_fst_functional _ name _ _ effective_regpl_nodup).
  - rewrite fmap_app. apply not_elem_of_app. split.
    + unfold candidate_writes. rewrite <- list_fmap_compose. intros H.
      apply list_elem_of_fmap in H as (p & E & Hp). cbn in E.
      apply key_inj in E. by apply (Hfree p).
    + apply all_writes_later; [done | lia].
Qed.

(** The value under the key of a candidate string, in a call with one
    request. *)
Lemma lookup_candidate (sep : string) (q : pyval) (cands : list string) (p : string) :
  p ∈ cands ->
  apply_writes (all_writes regpl sep 0 (resolved [(q, cands)])) ∅
    !! key (str 0) (sep +:+ p)
  = Some (pick (category_of q) (fields3 sep p)).
Proof.
  intros Hp. cbn [resolved fmap list_fmap all_writes fst snd].
  unfold request_writes. rewrite <- app_assoc. apply apply_writes_last.
  - unfold candidate_writes. rewrite <- list_fmap_compose.
    apply list_elem_of_fmap. by exists p.
  - intros v' Hv'. unfold candidate_writes in Hv'.
    apply list_elem_of_fmap in Hv' as (p' & E & _).
    apply pair_equal_spec in E as [E ->].
    apply key_inj in E. by simplify_eq.
  - apply not_elem_of_nil.
Qed.

(** The same in a call of several requests, when no later request can
    spell the key: the text after the index does not begin with a digit,
    or the request is the last one. *)
Lemma lookup_candidate_at (reqs : list (pyval * list string)) (sep : string)
    (i : nat) (q : pyval) (cands : list string) (p : string) :
  reqs !! i = Some (q, cands) ->
  p ∈ cands ->
  starts_letter (sep +:+ p) = true \/ length reqs = S i ->
  apply_writes (all_writes regpl sep 0 (resolved reqs)) ∅ !! key (str i) (sep +:+ p)
  = Some (pick (category_of q) (fields3 sep p)).
Proof.
  intros Hi Hp Hlast.
  rewrite <- (take_drop_middle _ _ _ Hi). unfold resolved.
  rewrite fmap_app, fmap_cons, all_writes_app. cbn [all_writes fst snd].
  rewrite length_fmap, length_take_le by (apply lookup_lt_Some in Hi; lia).
  unfold request_writes at 1. rewrite <- (app_assoc (shortcut_writes _ _ _)).
  rewrite (app_assoc (all_writes _ _ _ _)).
  apply apply_writes_last.
  - unfold candidate_writes. rewrite <- list_fmap_compose.
    apply list_elem_of_fmap. by exists p.
  - intros v' Hv'. unfold candidate_writes in Hv'.
    apply list_elem_of_fmap in Hv' as (p' & E & _).
    apply pair_equal_spec in E as [E ->].
    apply key_inj in E. by simplify_eq.
  - destruct Hlast as [Hletter|Hlen].
    + apply all_writes_later; [done | lia].
    + rewrite drop_ge by lia. apply not_elem_of_nil.
Qed.

(** Lines 240-247 on a string candidate. *)
Lemma split_normalize (sep p : string) :
  sep <> "" -> (s ← split p sep 2; normalize s) = Ret (fields3 sep p).
Proof.
  intros Hsep. unfold split. destruct sep as [|x sep]; [done|].
  cbn [mbind py_bind]. apply normalize_total.
Qed.

(** ** The docstring's examples *)

(** Runs a call on well-formed requests and names the dictionary it
    returns. *)
Ltac set_returns reqs kw :=
  eexists; split;
  [ apply (set_run reqs kw);
    [ repeat constructor
    | first [ left; discriminate | right; repeat constructor ] ]
  | ].

(** [plural.set((7,), (1,))] in 'DAY{P0S}, cherr{P1ies}'. *)
Example doc_days_cherry :
  exists m, set regpl [[PyInt 7]; [PyInt 1]] None = Ret m /\
    m !! "P0S" = Some "S" /\ m !! "P1ies" = Some "y".
Proof.
  set_returns [(PyInt 7, @nil string); (PyInt 1, [])] (@None string).
  split; by vm_compute.
Qed.

(** [plural.set(('none', 'Leaf|Leaves'))] and [plural.set((0,
    'null|single|multi'))]. *)
Example doc_leaves_null :
  (exists m, set regpl [[PyStr "none"; PyStr "Leaf|Leaves"]] None = Ret m /\
     m !! "P0|Leaf|Leaves" = Some "Leaves") /\
  (exists m, set regpl [[PyInt 0; PyStr "null|single|multi"]] None = Ret m /\
     m !! "P0|null|single|multi" = Some "null").
Proof.
  split.
  - set_returns [(PyStr "none", ["Leaf|Leaves"])] (@None string). by vm_compute.
  - set_returns [(PyInt 0, ["null|single|multi"])] (@None string). by vm_compute.
Qed.

(** [plural.set((1, 'Leaf<x>Leaves'), (10, 'aaa<x>bbb<x>ccc<x>ddd'),
    sep='<x>')]. *)
Example doc_separator :
  exists m,
    set regpl [[PyInt 1; PyStr "Leaf<x>Leaves"];
               [PyInt 10; PyStr "aaa<x>bbb<x>ccc<x>ddd"]] (Some "<x>") = Ret m /\
    m !! "P0<x>Leaf<x>Leaves" = Some "Leaf" /\
    m !! "P1<x>aaa<x>bbb<x>ccc<x>ddd" = Some "ccc<x>ddd".
Proof.
  set_returns [(PyInt 1, ["Leaf<x>Leaves"]); (PyInt 10, ["aaa<x>bbb<x>ccc<x>ddd"])]
              (Some "<x>").
  split; by vm_compute.
Qed.

(** [plural.set((3, '/+-|#&_|];%|$'))]. *)
Example doc_special_characters :
  exists m, set regpl [[PyInt 3; PyStr "/+-|#&_|];%|$"]] None = Ret m /\
    m !! "P0|/+-|#&_|];%|$" = Some "];%|$".
Proof. set_returns [(PyInt 3, ["/+-|#&_|];%|$"])] (@None string). by vm_compute. Qed.

(** ** Test values *)

Lemma starts_letter_app (a b : string) :
  starts_letter a = true -> starts_letter (a +:+ b) = true.
Proof. by destruct a. Qed.

Lemma starts_letter_nonempty (a : string) : starts_letter a = true -> a <> "".
Proof. by destruct a. Qed.

Lemma form_of_int (q : Z) :
  form_of (PyInt q)
  = PyInt (if (q =? 0)%Z then 0 else if (q =? 1)%Z then 1 else 2).
Proof.
  unfold form_of, py_in. cbn [existsb py_eq_int].
  destruct (Z.eqb_spec q 0) as [->|]; [done|].
  by destruct (Z.eqb_spec q 1) as [->|].
Qed.

Lemma set_body_form (cat : list (string * list string)) (sep : string) (i : nat)
    (q q' : pyval) (rest : list pyval) (result : dict) :
  form_of q' = form_of q ->
  set_body cat sep i (q' :: rest) result = set_body cat sep i (q :: rest) result.
Proof.
  intros E. unfold set_body. rewrite !getitem_first. cbn [mbind py_bind drop].
  by rewrite E.
Qed.

(** The form kept for an integer test value, and what it subscripts. *)
Lemma classify_integer_form (q : Z) :
  (classify (PyInt q) = Some ZERO <-> q = 0%Z) /\
  (classify (PyInt q) = Some SINGULAR <-> q = 1%Z) /\
  (classify (PyInt q) = Some PLURAL <-> q <> 0%Z /\ q <> 1%Z) /\
  (exists c, classify (PyInt q) = Some c /\
     form_of (PyInt q) = PyInt (Z.of_nat (cat_pos c)) /\
     forall forms : list string, length forms = 3 ->
       getitem forms (form_of (PyInt q)) = Ret (pick c forms)) /\
  (forall q' : Z, classify (PyInt q') = classify (PyInt q) ->
     forall cat sep i rest result,
       set_body cat sep i (PyInt q' :: rest) result
       = set_body cat sep i (PyInt q :: rest) result).
Proof.
  assert (Hq : forall z : Z,
    (z = 0%Z /\ classify (PyInt z) = Some ZERO /\ form_of (PyInt z) = PyInt 0) \/
    (z = 1%Z /\ classify (PyInt z) = Some SINGULAR /\ form_of (PyInt z) = PyInt 1) \/
    (z <> 0%Z /\ z <> 1%Z /\ classify (PyInt z) = Some PLURAL
       /\ form_of (PyInt z) = PyInt 2)).
  { intros z. unfold classify. rewrite form_of_int.
    destruct (Z.eqb_spec z 0) as [->|]; [by left|].
    destruct (Z.eqb_spec z 1) as [->|]; [by right; left|by right; right]. }
  destruct (Hq q) as [(-> & Hc & Hf)|[(-> & Hc & Hf)|(H0 & H1 & Hc & Hf)]];
    rewrite Hc, Hf.
  - repeat split; try done; try (intros [??]; done).
    + exists ZERO. repeat split. intros forms Hlen. by apply getitem_pick.
    + intros q' Hq' cat sep i rest result. apply set_body_form.
      destruct (Hq q') as [(_ & _ & ->)|[(_ & E & _)|(_ & _ & E & _)]];
        [done | congruence ..].
  - repeat split; try done; try (intros [??]; done).
    + exists SINGULAR. repeat split. intros forms Hlen. by apply getitem_pick.
    + intros q' Hq' cat sep i rest result. apply set_body_form.
      destruct (Hq q') as [(_ & E & _)|[(_ & _ & ->)|(_ & _ & E & _)]];
        [congruence | done | congruence].
  - repeat split; try done.
    + exists PLURAL. repeat split. intros forms Hlen. by apply getitem_pick.
    + intros q' Hq' cat sep i rest result. apply set_body_form.
      destruct (Hq q') as [(_ & E & _)|[(_ & E & _)|(_ & _ & _ & ->)]];
        [congruence | congruence | done].
Qed.

(** C1. For every integer test value [q], [set] works with category
    ZERO exactly when [q = 0], with SINGULAR exactly when [q = 1] and with
    PLURAL otherwise, negative integers included.  The form kept for the
    request is the position of that category: every tuple of three forms
    is read at that position, two integer test values of the same category
    make the body of the loop over the requests behave identically, and
    in the dictionary a call returns, the entries of a request whose test
    value is [q] hold the forms of that category: under every shortcut
    key of the request (unless a candidate string of the request spells
    the same key) the form of the category in the shortcut's tuple, and
    under the key of every candidate string of the request the field of
    the category among the fields lines 240-247 make of it (for a
    separator that does not begin with a digit, or for the last request
    of the call). *)
Theorem classify_integer (q : Z) :
  (classify (PyInt q) = Some ZERO <-> q = 0%Z) /\
  (classify (PyInt q) = Some SINGULAR <-> q = 1%Z) /\
  (classify (PyInt q) = Some PLURAL <-> q <> 0%Z /\ q <> 1%Z) /\
  (exists c, classify (PyInt q) = Some c /\
     form_of (PyInt q) = PyInt (Z.of_nat (cat_pos c)) /\
     forall forms : list string, length forms = 3 ->
       getitem forms (form_of (PyInt q)) = Ret (pick c forms)) /\
  (forall q' : Z, classify (PyInt q') = classify (PyInt q) ->
     forall cat sep i rest result,
       set_body cat sep i (PyInt q' :: rest) result
       = set_body cat sep i (PyInt q :: rest) result) /\
  (forall (reqs : list (pyval * list string)) (kw : option string) (i : nat)
          (cands : list string),
     Forall (fun r => float_0_or_1 r.1 = false) reqs ->
     sep_of kw <> "" ->
     reqs !! i = Some (PyInt q, cands) ->
     exists c m,
       classify (PyInt q) = Some c /\
       set regpl (tuples reqs) kw = Ret m /\
       (forall name forms,
          (name, forms) ∈ effective regpl ->
          (forall p, p ∈ cands -> sep_of kw +:+ p <> name) ->
          m !! ("P" +:+ str i +:+ name) = Some (pick c forms)) /\
       (forall p,
          p ∈ cands ->
          starts_letter (sep_of kw) = true \/ length reqs = S i ->
          exists fields,
            (s ← split p (sep_of kw) 2; normalize s) = Ret fields /\
            m !! ("P" +:+ str i +:+ sep_of kw +:+ p) = Some (pick c fields))).
Proof.
  destruct (classify_integer_form q) as (H0 & H1 & H2 & H3 & H4).
  do 5 (split; [assumption|]).
  intros reqs kw i cands Hreqs Hsep Hi.
  exists (category_of (PyInt q)),
    (apply_writes (all_writes regpl (sep_of kw) 0 (resolved reqs)) ∅).
  split; [by apply classify_usable|].
  split; [apply set_run; [done | by left]|].
  split.
  - intros name forms Hname Hfree. fold (key (str i) name).
    by eapply lookup_shortcut.
  - intros p Hp Hlast. exists (fields3 (sep_of kw) p).
    split; [by apply split_normalize|].
    fold (key (str i) (sep_of kw +:+ p)).
    eapply lookup_candidate_at; [done.. |].
    destruct Hlast as [Hletter|Hlen]; [left; by apply starts_letter_app | by right].
Qed.

Lemma classify_integer_witness :
  Forall (fun r : pyval * list string => float_0_or_1 r.1 = false)
    [(PyInt 1, []); (PyInt 5, ["null|single|multi"])] /\
  sep_of None <> "" /\
  [(PyInt 1, @nil string); (PyInt 5, ["null|single|multi"])] !! 1
  = Some (PyInt 5, ["null|single|multi"]) /\
  exists m,
    set regpl [[PyInt 1]; [PyInt 5; PyStr "null|single|multi"]] None = Ret m /\
    m !! "P1s" = Some "s" /\
    m !! "P1|null|single|multi" = Some "multi".
Proof.
  assert (H1 : Forall (fun r : pyval * list string => float_0_or_1 r.1 = false)
                 [(PyInt 1, []); (PyInt 5, ["null|single|multi"])])
    by (repeat constructor).
  assert (H2 : sep_of None <> "") by discriminate.
  assert (H3 : [(PyInt 1, @nil string); (PyInt 5, ["null|single|multi"])] !! 1
               = Some (PyInt 5, ["null|single|multi"])) by reflexivity.
  split; [exact H1|]. split; [exact H2|]. split; [exact H3|].
  destruct (proj2 (proj2 (proj2 (proj2 (proj2 (classify_integer 5)))))
              _ None 1 _ H1 H2 H3) as (c & m & Hc & Hm & Hshort & Hcand).
  vm_compute in Hc. injection Hc as <-.
  exists m. split; [exact Hm|]. split.
  - refine (Hshort "s" ["s"; ""; "s"] _ _).
    + apply (bool_decide_unpack _). by vm_compute.
    + intros p Hp. apply list_elem_of_singleton in Hp as ->. discriminate.
  - destruct (Hcand "null|single|multi") as (fields & Hf & Hv);
      [by left | by left |].
    vm_compute in Hf. injection Hf as <-. exact Hv.
Defined.

Lemma set_body_bool (cat : list (string * list string)) (sep : string) (i : nat)
    (v : list pyval) (result : dict) :
  set_body cat sep i (bool_as_int v) result = set_body cat sep i v result.
Proof.
  destruct v as [|[| b | | | |] rest]; try done.
  unfold bool_as_int, set_body. rewrite !getitem_first. cbn [mbind py_bind drop].
  by destruct b.
Qed.

(** C10. A boolean test value is classified by its numeric value: [False]
    is category ZERO, [True] is category SINGULAR, and a call gives the
    same outcome when boolean test values are replaced by the integers 0
    and 1; so [set((True,))] maps "P0s" to the empty string and is the
    dictionary [set((1,))] returns. *)
Theorem bool_quantity (cat : list (string * list string))
    (args : list (list pyval)) (kw : option string) :
  classify (PyBool false) = Some ZERO /\
  classify (PyBool true) = Some SINGULAR /\
  set cat (bool_as_int <$> args) kw = set cat args kw /\
  exists m, set regpl [[PyBool true]] None = Ret m /\
    m !! "P0s" = Some "" /\
    set regpl [[PyInt 1]] None = Ret m.
Proof.
  split; [done|]. split; [done|]. split.
  - unfold set. generalize (∅ : dict) 0.
    induction args as [|v args IH]; intros result i; [done|].
    cbn [fmap list_fmap set_loop]. rewrite set_body_bool.
    destruct (set_body cat (sep_of kw) i v result); [apply IH | done].
  - set_returns [(PyBool true, @nil string)] (@None string).
    split; [by vm_compute|].
    apply (set_run [(PyInt 1, @nil string)] None);
      [repeat constructor | left; discriminate].
Qed.

(** C6, at the failing input. A test value that is the float 1.0 (or
    0.0) compares equal to 1 (or 0), is kept as the form, and raises
    [TypeError] when the first tuple of forms is subscripted with it. *)
Theorem float_quantity_raises :
  set regpl [[PyFloat float_one]] None = Raise TypeError /\
  set regpl [[PyFloat float_zero]] None = Raise TypeError /\
  py_in (PyFloat float_one) [0; 1]%Z = true /\
  form_of (PyFloat float_one) = PyFloat float_one.
Proof. repeat split; by vm_compute. Qed.

(** C2, at the failing input. With the test value 0.0, which is not
    equal to 1, the two-field candidate "leaf|leaves" is never reached:
    the call raises [TypeError] instead of selecting "leaves". *)
Theorem two_fields_float_raises :
  set regpl [request (PyFloat float_zero) ["leaf|leaves"]] None = Raise TypeError /\
  py_eq_int (PyFloat float_zero) 1 = false.
Proof. split; by vm_compute. Qed.

(** ** Candidate strings *)

Lemma split_fields (sep p : string) (s : list string) :
  split p sep 2 = Ret s -> sep <> "" /\ fields3 sep p = arrange s.
Proof.
  unfold split, fields3. destruct sep as [|x sep]; [done|].
  by intros [= <-].
Qed.

Lemma category_of_cases (q : pyval) (z s p : string) :
  pick (category_of q) [z; s; p]
  = if py_eq_int q 0 then z else if py_eq_int q 1 then s else p.
Proof.
  unfold category_of. destruct (py_eq_int q 0); [done|].
  by destruct (py_eq_int q 1).
Qed.

(** C4, as the code has it. A candidate string that splits into exactly
    two fields [f1], [f2] is read as singular, plural: the fields are
    re-ordered to the triple plural, singular, plural, that is [f2], [f1],
    [f2], so the categories ZERO and PLURAL select [f2] and the category
    SINGULAR selects [f1]. *)
Theorem two_fields_order (sep p f1 f2 : string) (q : pyval) (cands : list string) :
  split p sep 2 = Ret [f1; f2] ->
  float_0_or_1 q = false ->
  p ∈ cands ->
  normalize [f1; f2] = Ret [f2; f1; f2] /\
  exists m, set regpl [request q cands] (Some sep) = Ret m /\
    m !! ("P0" +:+ sep +:+ p)
    = Some match category_of q with
           | SINGULAR => f1
           | ZERO | PLURAL => f2
           end.
Proof.
  intros Hsplit Hq Hp. split; [done|].
  apply split_fields in Hsplit as [Hsep Hf].
  eexists. split.
  - apply (set_run [(q, cands)] (Some sep)); [by repeat constructor | by left].
  - change ("P0" +:+ sep +:+ p) with (key (str 0) (sep +:+ p)).
    rewrite (lookup_candidate _ _ _ _ Hp), Hf. by destruct (category_of q).
Qed.

Lemma two_fields_order_witness :
  split "leaf|leaves" "|" 2 = Ret ["leaf"; "leaves"] /\
  float_0_or_1 (PyInt 1) = false /\
  "leaf|leaves" ∈ ["leaf|leaves"] /\
  exists m, set regpl [request (PyInt 1) ["leaf|leaves"]] (Some "|") = Ret m /\
    m !! "P0|leaf|leaves" = Some "leaf".
Proof.
  assert (H1 : split "leaf|leaves" "|" 2 = Ret ["leaf"; "leaves"]) by reflexivity.
  assert (H2 : float_0_or_1 (PyInt 1) = false) by reflexivity.
  assert (H3 : "leaf|leaves" ∈ ["leaf|leaves"]) by (by left).
  split; [exact H1|]. split; [exact H2|]. split; [exact H3|].
  exact (proj2 (two_fields_order "|" "leaf|leaves" "leaf" "leaves" (PyInt 1)
                  ["leaf|leaves"] H1 H2 H3)).
Defined.

(** C4 as stated fails: with the fields read as plural, singular the
    singular category would select the second field, but [set((1,
    'leaf|leaves'))] selects the first one, "leaf", and the triple built
    from the two fields is "leaves", "leaf", "leaves". *)
Lemma two_fields_plural_first_counterexample :
  split "leaf|leaves" "|" 2 = Ret ["leaf"; "leaves"] /\
  normalize ["leaf"; "leaves"] = Ret ["leaves"; "leaf"; "leaves"] /\
  classify (PyInt 1) = Some SINGULAR /\
  exists m, set regpl [[PyInt 1; PyStr "leaf|leaves"]] None = Ret m /\
    m !! "P0|leaf|leaves" = Some "leaf" /\
    m !! "P0|leaf|leaves" <> Some "leaves".
Proof.
  do 3 (split; [reflexivity|]).
  set_returns [(PyInt 1, ["leaf|leaves"])] (@None string).
  split; by vm_compute.
Qed.

(** C3, as the code has it. For a non-empty separator and strings [z],
    [s] such that the first occurrence of the separator in [z + sep] and
    in [s + sep] is the appended one, and for any string [p], the
    candidate string [z + sep + s + sep + p] splits into exactly [z], [s],
    [p], and a request carrying it selects [z] when the test value equals
    0, [s] when it equals 1 and [p] otherwise; [p] may itself contain the
    separator. The test value is any value other than a float equal to 0
    or 1. *)
Theorem three_fields_roundtrip (sep z s p : string) (q : pyval) (cands : list string) :
  sep <> "" ->
  String.index 0 sep (z +:+ sep) = Some (String.length z) ->
  String.index 0 sep (s +:+ sep) = Some (String.length s) ->
  float_0_or_1 q = false ->
  z +:+ sep +:+ s +:+ sep +:+ p ∈ cands ->
  split (z +:+ sep +:+ s +:+ sep +:+ p) sep 2 = Ret [z; s; p] /\
  exists m, set regpl [request q cands] (Some sep) = Ret m /\
    m !! ("P0" +:+ sep +:+ z +:+ sep +:+ s +:+ sep +:+ p)
    = Some (if py_eq_int q 0 then z else if py_eq_int q 1 then s else p).
Proof.
  intros Hsep Hz Hs Hq Hp.
  assert (Hsplit : split (z +:+ sep +:+ s +:+ sep +:+ p) sep 2 = Ret [z; s; p]).
  { unfold split. destruct sep as [|x sep]; [done|].
    cbn [split_max]. by rewrite (cut_first _ _ _ Hz), (cut_first _ _ _ Hs). }
  split; [done|]. apply split_fields in Hsplit as [_ Hf].
  eexists. split.
  - apply (set_run [(q, cands)] (Some sep)); [by repeat constructor | by left].
  - change ("P0" +:+ sep +:+ ?x) with (key (str 0) (sep +:+ x)).
    rewrite (lookup_candidate _ _ _ _ Hp), Hf. f_equal. apply category_of_cases.
Qed.

Lemma three_fields_roundtrip_witness :
  "<x>" <> "" /\
  String.index 0 "<x>" ("null" +:+ "<x>") = Some (String.length "null") /\
  String.index 0 "<x>" ("single" +:+ "<x>") = Some (String.length "single") /\
  float_0_or_1 (PyInt 5) = false /\
  "null" +:+ "<x>" +:+ "single" +:+ "<x>" +:+ "multi<x>more" ∈ ["null<x>single<x>multi<x>more"] /\
  exists m, set regpl [request (PyInt 5) ["null<x>single<x>multi<x>more"]] (Some "<x>") = Ret m /\
    m !! "P0<x>null<x>single<x>multi<x>more" = Some "multi<x>more".
Proof.
  assert (H0 : "<x>" <> "") by discriminate.
  assert (H1 : String.index 0 "<x>" ("null" +:+ "<x>") = Some (String.length "null"))
    by reflexivity.
  assert (H2 : String.index 0 "<x>" ("single" +:+ "<x>") = Some (String.length "single"))
    by reflexivity.
  assert (H3 : float_0_or_1 (PyInt 5) = false) by reflexivity.
  assert (H4 : "null" +:+ "<x>" +:+ "single" +:+ "<x>" +:+ "multi<x>more"
               ∈ ["null<x>single<x>multi<x>more"]) by (by left).
  do 5 (split; [assumption|]).
  exact (proj2 (three_fields_roundtrip "<x>" "null" "single" "multi<x>more"
                  (PyInt 5) ["null<x>single<x>multi<x>more"] H0 H1 H2 H3 H4)).
Defined.

(** C3 as stated fails for a separator that can overlap itself: with the
    separator "--", the strings "a-", "b" and "c" contain no separator,
    yet in "a-" + "--" + "b" + "--" + "c" the first separator found
    starts inside "a-", so a test value of 0 selects "a" and not "a-". *)
Lemma three_fields_overlap_counterexample :
  String.index 0 "--" "a-" = None /\
  String.index 0 "--" "b" = None /\
  String.index 0 "--" "c" = None /\
  "a-" +:+ "--" +:+ "b" +:+ "--" +:+ "c" = "a---b--c" /\
  split "a---b--c" "--" 2 = Ret ["a"; "-b"; "c"] /\
  exists m, set regpl [[PyInt 0; PyStr "a---b--c"]] (Some "--") = Ret m /\
    m !! "P0--a---b--c" = Some "a" /\
    m !! "P0--a---b--c" <> Some "a-".
Proof.
  do 5 (split; [reflexivity|]).
  set_returns [(PyInt 0, ["a---b--c"])] (Some "--").
  split; by vm_compute.
Qed.

(** ** Shortcut keys *)

Lemma apply_writes_is_Some (ws : list (string * string)) (k : string) (m : dict) :
  k ∈ ws.*1 -> is_Some (apply_writes ws m !! k).
Proof.
  revert m. induction ws as [|[k' v'] ws IH]; intros m Hk.
  - by apply elem_of_nil in Hk.
  - cbn [apply_writes foldl fst snd]. fold (apply_writes ws (<[k' := v']> m)).
    destruct (decide (k ∈ ws.*1)) as [Hin|Hout]; [by apply IH|].
    rewrite apply_writes_other by done.
    rewrite fmap_cons in Hk. apply elem_of_cons in Hk as [Hk|]; [|done].
    cbn [fst] in Hk. subst k'. by rewrite lookup_insert_eq.
Qed.

Lemma shortcut_key_written (reqs : list (pyval * list string)) (sep : string)
    (i : nat) (q : pyval) (cands : list string) (name : string)
    (forms : list string) :
  reqs !! i = Some (q, cands) ->
  (name, forms) ∈ effective regpl ->
  key (str i) name ∈ (all_writes regpl sep 0 (resolved reqs)).*1.
Proof.
  intros Hi Hname.
  rewrite <- (take_drop_middle _ _ _ Hi). unfold resolved.
  rewrite fmap_app, fmap_cons, all_writes_app. cbn [all_writes fst snd].
  rewrite length_fmap, length_take_le by (apply lookup_lt_Some in Hi; lia).
  rewrite !fmap_app, !elem_of_app. right. left.
  unfold request_writes. rewrite fmap_app, elem_of_app. left.
  unfold shortcut_writes. rewrite <- list_fmap_compose.
  apply list_elem_of_fmap. by exists (name, forms).
Qed.

(** What the loop over [regpl] leaves in the dictionary. *)
Lemma shortcuts_emitted (n : string) (q : pyval) (name : string)
    (forms : list string) (result : dict) :
  float_0_or_1 q = false ->
  (name, forms) ∈ effective regpl ->
  exists result',
    py_for (shortcut_step n (form_of q)) regpl result = Ret result' /\
    result' !! key n name = Some (pick (category_of q) forms).
Proof.
  intros Hq Hname. eexists. split.
  - apply shortcuts_run; [by apply classify_usable | apply regpl_len3].
  - apply apply_writes_agree.
    + unfold shortcut_writes. rewrite <- list_fmap_compose.
      apply list_elem_of_fmap. by exists (name, forms).
    + intros v' Hv'. unfold shortcut_writes in Hv'.
      apply list_elem_of_fmap in Hv' as ([name' forms'] & E & Hin).
      apply pair_equal_spec in E as [E ->].
      cbn [fst snd] in *. apply key_inj in E as <-.
      f_equal. by apply (nodup_fst_functional _ name _ _ effective_regpl_nodup).
Qed.

(** C5, as the code has it. In a call whose requests are well formed,
    the loop over [regpl] runs for every request, whether or not it
    carries candidate strings, and leaves under every shortcut key of that
    request, capitalized ones included, the form of the request's
    category; every such key is in the returned dictionary, and it still
    holds that form there unless a candidate string [p] of the same
    request spells the same key ([sep + p] is the shortcut's name), in
    which case the entry of the candidate string, written later, replaces
    it. *)
Theorem shortcut_entries (reqs : list (pyval * list string)) (kw : option string) :
  Forall (fun r => float_0_or_1 r.1 = false) reqs ->
  sep_of kw <> "" \/ Forall (fun r => r.2 = []) reqs ->
  exists m, set regpl (tuples reqs) kw = Ret m /\
    forall i q cands name forms,
      reqs !! i = Some (q, cands) ->
      (name, forms) ∈ effective regpl ->
      (forall result, exists result',
         py_for (shortcut_step (str i) (form_of q)) regpl result = Ret result' /\
         result' !! ("P" +:+ str i +:+ name) = Some (pick (category_of q) forms)) /\
      is_Some (m !! ("P" +:+ str i +:+ name)) /\
      ((forall p, p ∈ cands -> sep_of kw +:+ p <> name) ->
       m !! ("P" +:+ str i +:+ name) = Some (pick (category_of q) forms)).
Proof.
  intros Hq Hsep. eexists. split; [by apply set_run|].
  intros i q cands name forms Hi Hname. fold (key (str i) name).
  split; [|split].
  - intros result. apply shortcuts_emitted; [|done].
    by apply (proj1 (Forall_forall _ _) Hq _ (list_elem_of_lookup_2 _ _ _ Hi)).
  - apply apply_writes_is_Some. by eapply shortcut_key_written.
  - intros Hfree. by eapply lookup_shortcut.
Qed.

Lemma shortcut_entries_witness :
  Forall (fun r : pyval * list string => float_0_or_1 r.1 = false)
    [(PyInt 2, []); (PyInt 1, ["leaf|leaves"])] /\
  (sep_of None <> "" \/
   Forall (fun r : pyval * list string => r.2 = [])
     [(PyInt 2, []); (PyInt 1, ["leaf|leaves"])]) /\
  exists m, set regpl [[PyInt 2]; [PyInt 1; PyStr "leaf|leaves"]] None = Ret m /\
    m !! "P0s" = Some "s" /\ m !! "P0S" = Some "S" /\
    m !! "P1s" = Some "" /\ m !! "P1y" = Some "y".
Proof.
  assert (H1 : Forall (fun r : pyval * list string => float_0_or_1 r.1 = false)
                 [(PyInt 2, []); (PyInt 1, ["leaf|leaves"])])
    by (repeat constructor).
  assert (H2 : sep_of None <> "" \/
               Forall (fun r : pyval * list string => r.2 = [])
                 [(PyInt 2, []); (PyInt 1, ["leaf|leaves"])])
    by (left; discriminate).
  split; [exact H1|]. split; [exact H2|].
  destruct (shortcut_entries _ None H1 H2) as (m & Hm & H).
  exists m. split; [exact Hm|].
  assert (Hfree : forall name : string, name <> "|leaf|leaves" ->
            forall p : string, p ∈ ["leaf|leaves"] -> sep_of None +:+ p <> name).
  { intros name Hne p Hp. apply list_elem_of_singleton in Hp as ->. by intros <-. }
  split; [|split; [|split]].
  - refine (proj2 (proj2 (H 0 (PyInt 2) [] "s" ["s"; ""; "s"] eq_refl _)) _).
    + apply (bool_decide_unpack _). by vm_compute.
    + intros p Hp. by apply elem_of_nil in Hp.
  - refine (proj2 (proj2 (H 0 (PyInt 2) [] "S" ["S"; ""; "S"] eq_refl _)) _).
    + apply (bool_decide_unpack _). by vm_compute.
    + intros p Hp. by apply elem_of_nil in Hp.
  - refine (proj2 (proj2 (H 1 (PyInt 1) ["leaf|leaves"] "s" ["s"; ""; "s"] eq_refl _)) _).
    + apply (bool_decide_unpack _). by vm_compute.
    + by apply Hfree.
  - refine (proj2 (proj2 (H 1 (PyInt 1) ["leaf|leaves"] "y" ["ies"; "y"; "ies"] eq_refl _)) _).
    + apply (bool_decide_unpack _). by vm_compute.
    + by apply Hfree.
Defined.

(** C5 as stated fails when a candidate string spells a shortcut key:
    [set((2, ''), sep='s')] writes "s" under "P0s" and then the empty
    string, the only field of the candidate '', under the same key. *)
Lemma shortcut_overwritten_counterexample :
  classify (PyInt 2) = Some PLURAL /\
  ("s", ["s"; ""; "s"]) ∈ regpl /\
  pick PLURAL ["s"; ""; "s"] = "s" /\
  exists m, set regpl [[PyInt 2; PyStr ""]] (Some "s") = Ret m /\
    m !! "P0s" = Some "" /\
    m !! "P0s" <> Some "s".
Proof.
  split; [reflexivity|]. split; [by left|]. split; [reflexivity|].
  set_returns [(PyInt 2, [""])] (Some "s"). split; by vm_compute.
Qed.

(** C9, as the code has it. In a call whose requests are well formed,
    for every request index [i] and every shortcut name [r] of [regpl],
    the value under "P" + i + upper(r) is the upper-cased value under
    "P" + i + r, provided no candidate string [p] of that request spells
    one of the two keys ([sep + p] is neither [r] nor [upper(r)]). *)
Theorem upper_shortcuts (reqs : list (pyval * list string)) (kw : option string) :
  Forall (fun r => float_0_or_1 r.1 = false) reqs ->
  sep_of kw <> "" \/ Forall (fun r => r.2 = []) reqs ->
  exists m, set regpl (tuples reqs) kw = Ret m /\
    forall i q cands r forms,
      reqs !! i = Some (q, cands) ->
      (r, forms) ∈ regpl ->
      (forall p, p ∈ cands -> sep_of kw +:+ p <> r /\ sep_of kw +:+ p <> upper r) ->
      exists v,
        m !! ("P" +:+ str i +:+ r) = Some v /\
        m !! ("P" +:+ str i +:+ upper r) = Some (upper v).
Proof.
  intros Hq Hsep. eexists. split; [by apply set_run|].
  intros i q cands r forms Hi Hr Hfree.
  destruct (elem_of_effective _ _ _ Hr) as [Hlow Hup].
  exists (pick (category_of q) forms). fold (key (str i) r) (key (str i) (upper r)).
  split.
  - eapply lookup_shortcut; [done.. |]. intros p Hp. by apply Hfree.
  - rewrite <- upper_pick.
    + eapply lookup_shortcut; [done.. |]. intros p Hp. by apply Hfree.
    + by apply (proj1 (Forall_forall _ _) regpl_len3 _ Hr).
Qed.

Lemma upper_shortcuts_witness :
  Forall (fun r : pyval * list string => float_0_or_1 r.1 = false)
    [(PyInt 7, []); (PyInt 1, [])] /\
  (sep_of None <> "" \/
   Forall (fun r : pyval * list string => r.2 = []) [(PyInt 7, []); (PyInt 1, [])]) /\
  exists m, set regpl [[PyInt 7]; [PyInt 1]] None = Ret m /\
    exists v, m !! "P1ies" = Some v /\ m !! "P1IES" = Some (upper v).
Proof.
  assert (H1 : Forall (fun r : pyval * list string => float_0_or_1 r.1 = false)
                 [(PyInt 7, []); (PyInt 1, [])])
    by (repeat constructor).
  assert (H2 : sep_of None <> "" \/
               Forall (fun r : pyval * list string => r.2 = [])
                 [(PyInt 7, []); (PyInt 1, [])])
    by (left; discriminate).
  split; [exact H1|]. split; [exact H2|].
  destruct (upper_shortcuts _ None H1 H2) as (m & Hm & H).
  exists m. split; [exact Hm|].
  refine (H 1 (PyInt 1) [] "ies" ["ies"; "y"; "ies"] eq_refl _ _).
  - apply (bool_decide_unpack _). by vm_compute.
  - intros p Hp. by apply elem_of_nil in Hp.
Defined.

(** C9 as stated fails when a candidate string spells a shortcut key:
    [set((2, 'is'), sep='th')] leaves the candidate's "is" under
    "P0this" and the shortcut's "THESE" under "P0THIS". *)
Lemma upper_shortcuts_counterexample :
  ("this", ["these"; "this"; "these"]) ∈ regpl /\
  upper "this" = "THIS" /\
  exists m, set regpl [[PyInt 2; PyStr "is"]] (Some "th") = Ret m /\
    m !! "P0this" = Some "is" /\
    m !! "P0THIS" = Some "THESE" /\
    upper "is" <> "THESE".
Proof.
  split; [apply (bool_decide_unpack _); by vm_compute|]. split; [reflexivity|].
  set_returns [(PyInt 2, ["is"])] (Some "th"). repeat split; by vm_compute.
Qed.

(** ** The empty separator *)

Lemma set_body_empty_sep (i : nat) (q : pyval) (p : string) (cands : list string)
    (result : dict) :
  float_0_or_1 q = false ->
  set_body regpl "" i (request q (p :: cands)) result = Raise ValueError.
Proof.
  intros Hq. unfold set_body, request. rewrite getitem_first.
  cbn [mbind py_bind].
  by rewrite (shortcuts_run _ _ _ _ _ (classify_usable _ Hq) regpl_len3).
Qed.

Lemma set_loop_empty_sep (reqs : list (pyval * list string)) (i : nat) (result : dict) :
  Forall (fun r => float_0_or_1 r.1 = false) reqs ->
  Exists (fun r => r.2 <> []) reqs ->
  set_loop regpl "" i (tuples reqs) result = Raise ValueError.
Proof.
  intros Hq. revert i result.
  induction Hq as [|[q cands] reqs Hq _ IH]; intros i result Hex.
  - by apply Exists_nil in Hex.
  - cbn [tuples fmap list_fmap set_loop fst snd] in *.
    destruct cands as [|p cands].
    + rewrite (set_body_run _ _ _ _ _ (category_of q));
        [| apply regpl_len3 | by apply classify_usable | by right].
      cbn [mbind py_bind]. apply IH.
      apply Exists_cons in Hex as [Hex|Hex]; done.
    + by rewrite set_body_empty_sep.
Qed.

(** C7, as the code has it. With an empty separator a call whose
    requests are otherwise well formed raises [ValueError], at the first
    split it attempts, exactly when some request carries a candidate
    string; when no request carries one, nothing is split and the call
    returns the same dictionary of shortcut entries as with the default
    separator. *)
Theorem empty_separator (reqs : list (pyval * list string)) :
  Forall (fun r => float_0_or_1 r.1 = false) reqs ->
  (Forall (fun r => r.2 = []) reqs ->
     exists m, set regpl (tuples reqs) (Some "") = Ret m /\
               set regpl (tuples reqs) None = Ret m) /\
  (Exists (fun r => r.2 <> []) reqs ->
     set regpl (tuples reqs) (Some "") = Raise ValueError).
Proof.
  intros Hq. split.
  - intros Hnone. eexists. split.
    + apply set_run; [done | by right].
    + rewrite set_run; [| done | by right]. f_equal. f_equal.
      cbn [sep_of]. generalize 0.
      induction Hnone as [|[q cands] reqs Hc _ IH]; intros i; [done|].
      cbn [snd] in Hc. subst cands.
      cbn [resolved fmap list_fmap all_writes fst snd].
      apply Forall_cons in Hq as [_ Hq]. f_equal. by apply IH.
  - intros Hex. by apply set_loop_empty_sep.
Qed.

Lemma empty_separator_witness :
  Forall (fun r : pyval * list string => float_0_or_1 r.1 = false)
    [(PyInt 2, []); (PyInt 0, ["leaf|leaves"])] /\
  Exists (fun r : pyval * list string => r.2 <> [])
    [(PyInt 2, []); (PyInt 0, ["leaf|leaves"])] /\
  set regpl [[PyInt 2]; [PyInt 0; PyStr "leaf|leaves"]] (Some "") = Raise ValueError.
Proof.
  assert (H1 : Forall (fun r : pyval * list string => float_0_or_1 r.1 = false)
                 [(PyInt 2, []); (PyInt 0, ["leaf|leaves"])])
    by (repeat constructor).
  assert (H2 : Exists (fun r : pyval * list string => r.2 <> [])
                 [(PyInt 2, []); (PyInt 0, ["leaf|leaves"])])
    by (right; left; discriminate).
  split; [exact H1|]. split; [exact H2|].
  exact (proj2 (empty_separator _ H1) H2).
Defined.

(** C7 as stated fails when no request carries a candidate string:
    [set((2,), sep='')] splits nothing and returns the shortcut entries. *)
Lemma empty_separator_counterexample :
  exists m, set regpl [[PyInt 2]] (Some "") = Ret m /\
    m !! "P0s" = Some "s" /\ size m = 20.
Proof.
  set_returns [(PyInt 2, @nil string)] (Some "").
  split; by vm_compute.
Qed.

(** ** Listing the shortcuts *)

Lemma shortcuts_step_run (w : world) (r : string) (forms : list string) :
  length forms = 3 ->
  shortcuts_step w (r, forms)
  = Ret {| w_regpl := w_regpl w;
           w_stdout := w_stdout w ++ [shortcut_line (r, forms);
                                      shortcut_line (upper r, upper <$> forms)] |}.
Proof.
  intros Hlen. unfold shortcuts_step.
  rewrite !(getitem_pick forms (PyInt 0) ZERO eq_refl Hlen).
  rewrite !(getitem_pick forms (PyInt 1) SINGULAR eq_refl Hlen).
  rewrite !(getitem_pick forms (PyInt 2) PLURAL eq_refl Hlen).
  cbn [mbind py_bind]. unfold print, shortcut_line.
  cbn [w_regpl w_stdout fst snd].
  rewrite !upper_pick by done. by rewrite <- app_assoc.
Qed.

Lemma shortcuts_loop_run (cat : list (string * list string)) (w : world) :
  Forall len3 cat ->
  py_for shortcuts_step cat w
  = Ret {| w_regpl := w_regpl w;
           w_stdout := w_stdout w ++ (shortcut_line <$> effective cat) |}.
Proof.
  intros Hcat. revert w.
  induction Hcat as [|[r forms] cat Hlen _ IH]; intros w.
  - cbn. rewrite app_nil_r. by destruct w.
  - cbn [py_for]. rewrite (shortcuts_step_run _ _ _ Hlen). cbn [mbind py_bind].
    rewrite IH. cbn [w_regpl w_stdout]. by rewrite <- app_assoc.
Qed.

Lemma shortcuts_run_world (w : world) :
  Forall len3 (w_regpl w) ->
  shortcuts w
  = Ret (PyNone,
         {| w_regpl := w_regpl w;
            w_stdout := w_stdout w ++ header :: (shortcut_line <$> effective (w_regpl w)) |}).
Proof.
  intros Hcat. unfold shortcuts. cbn [print w_regpl].
  rewrite shortcuts_loop_run by done. cbn [mbind py_bind w_regpl w_stdout print].
  by rewrite <- app_assoc.
Qed.

(** X15. [shortcuts()] returns [None] and prints: a
    header line, then for every entry of [regpl], in the table's order,
    the line of the entry followed by the line of its capitalized version,
    each formatted "[name: null, singular, plural]". The output is finite
    (21 lines), every entry of the table and every capitalized version has
    its line, a second call prints the same lines again, and the call
    leaves [regpl] as it was, so a later [set] gives the same outcome. *)
Theorem shortcuts_prints (out : list string) (args : list (list pyval))
    (kw : option string) :
  let w := {| w_regpl := regpl; w_stdout := out |} in
  let lines := header :: (shortcut_line <$> effective regpl) in
  exists w',
    shortcuts w = Ret (PyNone, w') /\
    w_stdout w' = out ++ lines /\
    length lines = 21 /\
    (forall name forms, (name, forms) ∈ effective regpl ->
       tpl_format name (pick ZERO forms) (pick SINGULAR forms) (pick PLURAL forms)
       ∈ w_stdout w') /\
    (exists w'', shortcuts w' = Ret (PyNone, w'') /\
       w_stdout w'' = w_stdout w' ++ lines) /\
    w_regpl w' = w_regpl w /\
    set (w_regpl w') args kw = set (w_regpl w) args kw.
Proof.
  intros w lines. eexists. split; [apply shortcuts_run_world, regpl_len3|].
  cbn [w_regpl w_stdout]. repeat split.
  - intros name forms H. apply elem_of_app. right. right.
    apply list_elem_of_fmap. by exists (name, forms).
  - eexists. split; [apply shortcuts_run_world, regpl_len3|]. done.
Qed.

(** C8, at the failing input. The docstring of [shortcuts] says that it
    returns the list of available shortcuts; the call returns no sequence
    of tuples: it returns [None], after printing its 21 lines. *)
Theorem shortcuts_returns_none :
  (forall items w', shortcuts initial_world <> Ret (PyTuple items, w')) /\
  exists w', shortcuts initial_world = Ret (PyNone, w') /\
    length (w_stdout w') = 21.
Proof.
  split.
  - intros items w'. by vm_compute.
  - eexists. split; by vm_compute.
Qed.

(** ** Candidate strings across requests *)

(** X1. When the separator does not begin with a decimal digit, the
    requests of a call keep independent keys: in a call whose requests are
    well formed, every candidate string [p] of the request at index [i]
    has its own entry "P" + i + sep + p in the returned dictionary, and
    its value is the field of [p] selected by the category of that
    request's test value, whatever the other requests are. *)
Theorem candidate_entries (reqs : list (pyval * list string)) (kw : option string) :
  starts_letter (sep_of kw) = true ->
  Forall (fun r => float_0_or_1 r.1 = false) reqs ->
  exists m, set regpl (tuples reqs) kw = Ret m /\
    forall i q cands p,
      reqs !! i = Some (q, cands) -> p ∈ cands ->
      m !! ("P" +:+ str i +:+ sep_of kw +:+ p)
      = Some (pick (category_of q) (fields3 (sep_of kw) p)).
Proof.
  intros Hsep Hq. eexists.
  split; [apply set_run; [done | left; by apply starts_letter_nonempty]|].
  intros i q cands p Hi Hp. fold (key (str i) (sep_of kw +:+ p)).
  rewrite <- (take_drop_middle _ _ _ Hi). unfold resolved.
  rewrite fmap_app, fmap_cons, all_writes_app. cbn [all_writes fst snd].
  rewrite length_fmap, length_take_le by (apply lookup_lt_Some in Hi; lia).
  unfold request_writes at 1. rewrite <- (app_assoc (shortcut_writes _ _ _)).
  rewrite (app_assoc (all_writes _ _ _ _)).
  apply apply_writes_last.
  - unfold candidate_writes. rewrite <- list_fmap_compose.
    apply list_elem_of_fmap. by exists p.
  - intros v' Hv'. unfold candidate_writes in Hv'.
    apply list_elem_of_fmap in Hv' as (p' & E & _).
    apply pair_equal_spec in E as [E ->].
    apply key_inj in E. by simplify_eq.
  - apply all_writes_later; [by apply starts_letter_app | lia].
Qed.

Lemma candidate_entries_witness :
  starts_letter (sep_of (Some "<x>")) = true /\
  Forall (fun r : pyval * list string => float_0_or_1 r.1 = false)
    [(PyInt 1, ["Leaf<x>Leaves"]); (PyInt 10, ["aaa<x>bbb<x>ccc<x>ddd"])] /\
  exists m,
    set regpl [[PyInt 1; PyStr "Leaf<x>Leaves"];
               [PyInt 10; PyStr "aaa<x>bbb<x>ccc<x>ddd"]] (Some "<x>") = Ret m /\
    m !! "P1<x>aaa<x>bbb<x>ccc<x>ddd" = Some "ccc<x>ddd".
Proof.
  assert (H1 : starts_letter (sep_of (Some "<x>")) = true) by reflexivity.
  assert (H2 : Forall (fun r : pyval * list string => float_0_or_1 r.1 = false)
                 [(PyInt 1, ["Leaf<x>Leaves"]); (PyInt 10, ["aaa<x>bbb<x>ccc<x>ddd"])])
    by (repeat constructor).
  split; [exact H1|]. split; [exact H2|].
  destruct (candidate_entries _ (Some "<x>") H1 H2) as (m & Hm & H).
  exists m. split; [exact Hm|].
  refine (H 1 (PyInt 10) ["aaa<x>bbb<x>ccc<x>ddd"] "aaa<x>bbb<x>ccc<x>ddd" eq_refl _).
  by left.
Defined.

Lemma cut_index_none (sep p : string) :
  String.index 0 sep p = None -> cut sep p = None.
Proof.
  induction p as [|c p IH]; intros H.
  - apply cut_empty. by destruct sep.
  - apply index_none_cons in H as [Hp H].
    by rewrite cut_later, IH.
Qed.

(** X2. A candidate string that does not contain the separator is its
    own only field: a request carrying it selects the whole string for
    every test value. *)
Theorem single_field_candidate (sep p : string) (q : pyval) (cands : list string) :
  sep <> "" ->
  String.index 0 sep p = None ->
  float_0_or_1 q = false ->
  p ∈ cands ->
  split p sep 2 = Ret [p] /\
  exists m, set regpl [request q cands] (Some sep) = Ret m /\
    m !! ("P0" +:+ sep +:+ p) = Some p.
Proof.
  intros Hsep Hnone Hq Hp.
  assert (Hsplit : split p sep 2 = Ret [p]).
  { unfold split. destruct sep as [|x sep]; [done|].
    cbn [split_max]. by rewrite (cut_index_none _ _ Hnone). }
  split; [done|]. apply split_fields in Hsplit as [_ Hf].
  eexists. split.
  - apply (set_run [(q, cands)] (Some sep)); [by repeat constructor | by left].
  - change ("P0" +:+ sep +:+ p) with (key (str 0) (sep +:+ p)).
    rewrite (lookup_candidate _ _ _ _ Hp), Hf. by destruct (category_of q).
Qed.

Lemma single_field_candidate_witness :
  "|" <> "" /\
  String.index 0 "|" "Fish" = None /\
  float_0_or_1 (PyInt 4) = false /\
  "Fish" ∈ ["Fish"] /\
  exists m, set regpl [request (PyInt 4) ["Fish"]] (Some "|") = Ret m /\
    m !! "P0|Fish" = Some "Fish".
Proof.
  assert (H0 : "|" <> "") by discriminate.
  assert (H1 : String.index 0 "|" "Fish" = None) by reflexivity.
  assert (H2 : float_0_or_1 (PyInt 4) = false) by reflexivity.
  assert (H3 : "Fish" ∈ ["Fish"]) by (by left).
  do 4 (split; [assumption|]).
  exact (proj2 (single_field_candidate "|" "Fish" (PyInt 4) ["Fish"] H0 H1 H2 H3)).
Defined.

(** ** Calls that raise *)

Lemma set_loop_app (cat : list (string * list string)) (sep : string) (i : nat)
    (args1 args2 : list (list pyval)) (result : dict) :
  set_loop cat sep i (args1 ++ args2) result
  = result' ← set_loop cat sep i args1 result;
    set_loop cat sep (i + length args1) args2 result'.
Proof.
  revert i result. induction args1 as [|v args1 IH]; intros i result.
  - cbn. by rewrite Nat.add_0_r.
  - cbn [app set_loop length]. destruct (set_body cat sep i v result) as [r|e]; [|done].
    cbn [mbind py_bind]. rewrite IH. do 2 f_equal. lia.
Qed.

(** A call that starts with well-formed requests goes on with what
    follows them. *)
Lemma set_after (reqs : list (pyval * list string)) (args : list (list pyval))
    (kw : option string) :
  Forall (fun r => float_0_or_1 r.1 = false) reqs ->
  sep_of kw <> "" \/ Forall (fun r => r.2 = []) reqs ->
  set regpl (tuples reqs ++ args) kw
  = set_loop regpl (sep_of kw) (length reqs) args
      (apply_writes (all_writes regpl (sep_of kw) 0 (resolved reqs)) ∅).
Proof.
  intros Hq Hsep. unfold set. rewrite set_loop_app.
  rewrite set_loop_run by (done || apply regpl_len3).
  cbn [mbind py_bind]. unfold tuples. by rewrite length_fmap.
Qed.

Lemma set_body_float (sep : string) (i : nat) (q : pyval) (rest : list pyval)
    (result : dict) :
  float_0_or_1 q = true ->
  set_body regpl sep i (q :: rest) result = Raise TypeError.
Proof.
  intros Hq. destruct q as [| | |f| |]; try done.
  unfold set_body. rewrite getitem_first. cbn [mbind py_bind].
  unfold form_of, py_in. cbn [existsb py_eq_int]. cbn [float_0_or_1] in Hq.
  by rewrite orb_false_r, Hq.
Qed.

(** X3. A test value that is a float equal to 0 or 1 (0.0, -0.0, 1.0)
    makes the call raise [TypeError]: with a non-empty separator, a call
    on request tuples made of a test value and candidate strings raises
    [TypeError] as soon as one request has such a test value, whatever
    the position of that request and whatever candidate strings it
    carries. *)
Theorem float_test_value_raises (reqs : list (pyval * list string))
    (kw : option string) :
  sep_of kw <> "" ->
  Exists (fun r => float_0_or_1 r.1 = true) reqs ->
  set regpl (tuples reqs) kw = Raise TypeError.
Proof.
  intros Hsep Hex. unfold set. generalize (∅ : dict) 0.
  induction Hex as [[q cands] reqs Hq | [q cands] reqs _ IH]; intros result i;
    cbn [tuples fmap list_fmap set_loop fst snd] in *.
  - unfold request. by rewrite set_body_float.
  - destruct (float_0_or_1 q) eqn:Hq.
    + unfold request. by rewrite set_body_float.
    + rewrite (set_body_run _ _ _ _ _ (category_of q));
        [| apply regpl_len3 | by apply classify_usable | by left].
      cbn [mbind py_bind]. apply IH.
Qed.

Lemma float_test_value_raises_witness :
  sep_of None <> "" /\
  Exists (fun r : pyval * list string => float_0_or_1 r.1 = true)
    [(PyInt 2, ["a|b"]); (PyFloat float_one, ["leaf|leaves"])] /\
  set regpl [[PyInt 2; PyStr "a|b"]; [PyFloat float_one; PyStr "leaf|leaves"]] None
  = Raise TypeError.
Proof.
  assert (H1 : sep_of None <> "") by discriminate.
  assert (H2 : Exists (fun r : pyval * list string => float_0_or_1 r.1 = true)
                 [(PyInt 2, ["a|b"]); (PyFloat float_one, ["leaf|leaves"])])
    by (right; left; reflexivity).
  split; [exact H1|]. split; [exact H2|].
  exact (float_test_value_raises _ None H1 H2).
Defined.

(** X4. A request tuple without a test value makes the call raise
    [IndexError]: after any number of well-formed requests, an empty tuple
    stops the call, whatever follows it. *)
Theorem missing_test_value (reqs : list (pyval * list string))
    (args : list (list pyval)) (kw : option string) :
  Forall (fun r => float_0_or_1 r.1 = false) reqs ->
  sep_of kw <> "" \/ Forall (fun r => r.2 = []) reqs ->
  set regpl (tuples reqs ++ [] :: args) kw = Raise IndexError.
Proof. intros Hq Hsep. by rewrite set_after. Qed.

Lemma missing_test_value_witness :
  Forall (fun r : pyval * list string => float_0_or_1 r.1 = false) [(PyInt 2, [])] /\
  (sep_of None <> "" \/
   Forall (fun r : pyval * list string => r.2 = []) [(PyInt 2, [])]) /\
  set regpl [[PyInt 2]; []; [PyInt 1]] None = Raise IndexError.
Proof.
  assert (H1 : Forall (fun r : pyval * list string => float_0_or_1 r.1 = false)
                 [(PyInt 2, [])]) by (repeat constructor).
  assert (H2 : sep_of None <> "" \/
               Forall (fun r : pyval * list string => r.2 = []) [(PyInt 2, [])])
    by (left; discriminate).
  split; [exact H1|]. split; [exact H2|].
  exact (missing_test_value [(PyInt 2, [])] [[PyInt 1]] None H1 H2).
Defined.

Lemma py_for_app {A B} (body : B -> A -> py B) (xs ys : list A) (acc : B) :
  py_for body (xs ++ ys) acc = acc' ← py_for body xs acc; py_for body ys acc'.
Proof.
  revert acc. induction xs as [|x xs IH]; intros acc; [done|].
  cbn [app py_for]. destruct (body acc x); [apply IH | done].
Qed.

(** X5. A candidate that is not a string makes the call raise
    [AttributeError]: after well-formed requests, a request whose test
    value is usable and whose candidates are strings up to a value of
    another type stops the call there, whatever follows. *)
Theorem non_string_candidate (reqs : list (pyval * list string)) (q : pyval)
    (cands : list string) (x : pyval) (rest : list pyval)
    (args : list (list pyval)) (kw : option string) :
  sep_of kw <> "" ->
  Forall (fun r => float_0_or_1 r.1 = false) reqs ->
  float_0_or_1 q = false ->
  is_str x = false ->
  set regpl (tuples reqs ++ (q :: (PyStr <$> cands) ++ x :: rest) :: args) kw
  = Raise AttributeError.
Proof.
  intros Hsep Hreqs Hq Hx. rewrite set_after by (done || by left).
  cbn [set_loop]. unfold set_body. rewrite getitem_first. cbn [mbind py_bind drop].
  rewrite (shortcuts_run _ _ _ _ _ (classify_usable _ Hq) regpl_len3).
  cbn [mbind py_bind]. rewrite drop_0, py_for_app.
  rewrite (candidates_run _ _ _ _ _ _ Hsep (classify_usable _ Hq)).
  cbn [mbind py_bind py_for]. by destruct x.
Qed.

Lemma non_string_candidate_witness :
  sep_of None <> "" /\
  Forall (fun r : pyval * list string => float_0_or_1 r.1 = false) [] /\
  float_0_or_1 (PyInt 1) = false /\
  is_str (PyInt 5) = false /\
  set regpl [[PyInt 1; PyStr "leaf|leaves"; PyInt 5]] None = Raise AttributeError.
Proof.
  assert (H1 : sep_of None <> "") by discriminate.
  assert (H2 : Forall (fun r : pyval * list string => float_0_or_1 r.1 = false) [])
    by constructor.
  assert (H3 : float_0_or_1 (PyInt 1) = false) by reflexivity.
  assert (H4 : is_str (PyInt 5) = false) by reflexivity.
  do 4 (split; [assumption|]).
  exact (non_string_candidate [] (PyInt 1) ["leaf|leaves"] (PyInt 5) [] [] None
           H1 H2 H3 H4).
Defined.

(** ** The keys of the result *)

Lemma apply_writes_dom (ws : list (string * string)) (k : string) :
  is_Some (apply_writes ws ∅ !! k) <-> k ∈ ws.*1.
Proof.
  split.
  - intros H. destruct (decide (k ∈ ws.*1)) as [|Hout]; [done|].
    rewrite apply_writes_other, lookup_empty in H by done. by destruct H.
  - apply apply_writes_is_Some.
Qed.

Lemma all_writes_keys (cat : list (string * list string)) (sep : string)
    (i0 : nat) (rs : list (category * list string)) (k : string) :
  k ∈ (all_writes cat sep i0 rs).*1 <->
  exists j c cands, rs !! j = Some (c, cands) /\
    k ∈ (request_writes cat sep (i0 + j) c cands).*1.
Proof.
  revert i0. induction rs as [|[c cands] rs IH]; intros i0; cbn [all_writes fst snd].
  - split; [by intros H%elem_of_nil | by intros (j & ? & ? & H & _)].
  - rewrite fmap_app, elem_of_app, IH. split.
    + intros [H | (j & c' & cands' & Hj & H)].
      * exists 0, c, cands. by rewrite Nat.add_0_r.
      * exists (S j), c', cands'. split; [done|]. by rewrite Nat.add_succ_r.
    + intros ([|j] & c' & cands' & Hj & H).
      * left. injection Hj as <- <-. by rewrite Nat.add_0_r in H.
      * right. exists j, c', cands'. split; [done|]. by rewrite Nat.add_succ_r in H.
Qed.

(** X6. The returned dictionary holds the keys of the requests and no
    other: in a call whose requests are well formed, a key is present
    exactly when it is "P" + i + name for a request index [i] and a
    shortcut name (capitalized or not), or "P" + i + sep + p for a
    candidate string [p] of the request at index [i]. *)
Theorem result_keys (reqs : list (pyval * list string)) (kw : option string) :
  Forall (fun r => float_0_or_1 r.1 = false) reqs ->
  sep_of kw <> "" \/ Forall (fun r => r.2 = []) reqs ->
  exists m, set regpl (tuples reqs) kw = Ret m /\
    forall k, is_Some (m !! k) <->
      exists i q cands, reqs !! i = Some (q, cands) /\
        ((exists name forms, (name, forms) ∈ effective regpl /\
            k = "P" +:+ str i +:+ name) \/
         (exists p, p ∈ cands /\ k = "P" +:+ str i +:+ sep_of kw +:+ p)).
Proof.
  intros Hq Hsep. eexists. split; [by apply set_run|].
  intros k. rewrite apply_writes_dom, all_writes_keys. split.
  - intros (j & c & cands & Hj & Hk). unfold resolved in Hj.
    rewrite list_lookup_fmap in Hj.
    destruct (reqs !! j) as [[q cands']|] eqn:Hreq; [|done].
    injection Hj as <- <-. exists j, q, cands'. split; [done|].
    unfold request_writes in Hk. rewrite fmap_app, elem_of_app in Hk.
    destruct Hk as [Hk|Hk].
    + left. unfold shortcut_writes in Hk. rewrite <- list_fmap_compose in Hk.
      apply list_elem_of_fmap in Hk as ([name forms] & -> & Hin).
      by exists name, forms.
    + right. unfold candidate_writes in Hk. rewrite <- list_fmap_compose in Hk.
      apply list_elem_of_fmap in Hk as (p & -> & Hin). by exists p.
  - intros (i & q & cands & Hi & Hk).
    exists i, (category_of q), cands. split.
    + unfold resolved. by rewrite list_lookup_fmap, Hi.
    + unfold request_writes. rewrite fmap_app, elem_of_app.
      destruct Hk as [(name & forms & Hin & ->)|(p & Hin & ->)].
      * left. unfold shortcut_writes. rewrite <- list_fmap_compose.
        apply list_elem_of_fmap. by exists (name, forms).
      * right. unfold candidate_writes. rewrite <- list_fmap_compose.
        apply list_elem_of_fmap. by exists p.
Qed.

Lemma result_keys_witness :
  Forall (fun r : pyval * list string => float_0_or_1 r.1 = false)
    [(PyInt 0, ["leaf|leaves"])] /\
  (sep_of None <> "" \/
   Forall (fun r : pyval * list string => r.2 = []) [(PyInt 0, ["leaf|leaves"])]) /\
  exists m, set regpl [[PyInt 0; PyStr "leaf|leaves"]] None = Ret m /\
    is_Some (m !! "P0|leaf|leaves") /\ ~ is_Some (m !! "P1s").
Proof.
  assert (H1 : Forall (fun r : pyval * list string => float_0_or_1 r.1 = false)
                 [(PyInt 0, ["leaf|leaves"])]) by (repeat constructor).
  assert (H2 : sep_of None <> "" \/
               Forall (fun r : pyval * list string => r.2 = [])
                 [(PyInt 0, ["leaf|leaves"])]) by (left; discriminate).
  split; [exact H1|]. split; [exact H2|].
  destruct (result_keys _ None H1 H2) as (m & Hm & H).
  exists m. split; [exact Hm|]. split.
  - apply H. exists 0, (PyInt 0), ["leaf|leaves"]. split; [reflexivity|].
    right. exists "leaf|leaves". split; [by left | reflexivity].
  - intros Hk. apply H in Hk as (i & q & cands & Hi & Hk).
    destruct i as [|i]; [|by destruct i].
    injection Hi as <- <-.
    destruct Hk as [(name & forms & _ & E)|(p & _ & E)]; discriminate E.
Defined.

Lemma apply_writes_size (ws : list (string * string)) (m : dict) :
  NoDup ws.*1 -> (forall k, k ∈ ws.*1 -> m !! k = None) ->
  size (apply_writes ws m) = size m + length ws.
Proof.
  revert m. induction ws as [|[k v] ws IH]; intros m Hnd Hfresh.
  - cbn. lia.
  - cbn [apply_writes foldl fst snd length]. fold (apply_writes ws (<[k := v]> m)).
    rewrite fmap_cons in Hnd. apply NoDup_cons in Hnd as [Hk Hnd].
    rewrite IH; [| done |].
    + rewrite map_size_insert_None; [lia|]. apply Hfresh. by left.
    + intros k' Hk'. rewrite lookup_insert_ne.
      * apply Hfresh. by right.
      * cbn [fst] in Hk. by intros ->.
Qed.

Lemma shortcut_writes_keys (n : string) (c : category) :
  (shortcut_writes regpl n c).*1 = key n <$> (effective regpl).*1.
Proof. unfold shortcut_writes. by rewrite <- !list_fmap_compose. Qed.

Lemma shortcut_writes_nodup (n : string) (c : category) :
  NoDup (shortcut_writes regpl n c).*1.
Proof.
  rewrite shortcut_writes_keys. apply NoDup_fmap_2_strong; [|apply effective_regpl_nodup].
  intros a b _ _. apply key_inj.
Qed.

Lemma shortcut_only_nodup (sep : string) (i : nat) (rs : list (category * list string)) :
  Forall (fun r => r.2 = []) rs -> NoDup (all_writes regpl sep i rs).*1.
Proof.
  intros Hrs. revert i.
  induction Hrs as [|[c cands] rs Hc _ IH]; intros i; cbn [all_writes fst snd].
  - constructor.
  - cbn [snd] in Hc. subst cands. unfold request_writes, candidate_writes.
    cbn [fmap list_fmap]. rewrite app_nil_r, fmap_app.
    apply NoDup_app. split; [apply shortcut_writes_nodup|]. split; [|apply IH].
    intros k Hk. rewrite shortcut_writes_keys in Hk.
    apply list_elem_of_fmap in Hk as (name & -> & Hname).
    apply list_elem_of_fmap in Hname as ([name' forms] & -> & Hin).
    apply all_writes_later; [|lia].
    by apply (proj1 (Forall_forall _ _) effective_regpl_letters _ Hin).
Qed.

Lemma shortcut_only_length (sep : string) (i : nat) (rs : list (category * list string)) :
  Forall (fun r => r.2 = []) rs ->
  length (all_writes regpl sep i rs) = 20 * length rs.
Proof.
  intros Hrs. revert i.
  induction Hrs as [|[c cands] rs Hc _ IH]; intros i; cbn [all_writes fst snd length].
  - lia.
  - cbn [snd] in Hc. subst cands. rewrite length_app, IH.
    unfold request_writes, shortcut_writes, candidate_writes.
    rewrite length_app, !length_fmap.
    change (length (effective regpl)) with 20. cbn [length]. lia.
Qed.

(** X7. Shortcut keys never collide, neither within a request nor across
    requests: a call on [n] requests that carry no candidate string
    returns a dictionary of exactly 20 * n entries, two per shortcut and
    request. *)
Theorem shortcut_count (reqs : list (pyval * list string)) (kw : option string) :
  Forall (fun r => float_0_or_1 r.1 = false) reqs ->
  Forall (fun r => r.2 = []) reqs ->
  exists m, set regpl (tuples reqs) kw = Ret m /\ size m = 20 * length reqs.
Proof.
  intros Hq Hnone. eexists. split; [apply set_run; [done | by right]|].
  assert (Hrs : Forall (fun r : category * list string => r.2 = []) (resolved reqs)).
  { unfold resolved. apply Forall_fmap. by eapply Forall_impl. }
  rewrite apply_writes_size.
  - rewrite map_size_empty, shortcut_only_length by done.
    unfold resolved. by rewrite length_fmap.
  - by apply shortcut_only_nodup.
  - intros k _. apply lookup_empty.
Qed.

Lemma shortcut_count_witness :
  Forall (fun r : pyval * list string => float_0_or_1 r.1 = false)
    [(PyInt 7, []); (PyInt 1, []); (PyStr "none", [])] /\
  Forall (fun r : pyval * list string => r.2 = [])
    [(PyInt 7, []); (PyInt 1, []); (PyStr "none", [])] /\
  exists m, set regpl [[PyInt 7]; [PyInt 1]; [PyStr "none"]] (Some "") = Ret m /\
    size m = 60.
Proof.
  assert (H1 : Forall (fun r : pyval * list string => float_0_or_1 r.1 = false)
                 [(PyInt 7, []); (PyInt 1, []); (PyStr "none", [])])
    by (repeat constructor).
  assert (H2 : Forall (fun r : pyval * list string => r.2 = [])
                 [(PyInt 7, []); (PyInt 1, []); (PyStr "none", [])])
    by (repeat constructor).
  split; [exact H1|]. split; [exact H2|].
  exact (shortcut_count _ (Some "") H1 H2).
Defined.

(** ** What the shortcuts distinguish *)

Lemma category_of_one (q : pyval) :
  float_0_or_1 q = false ->
  category_of q = SINGULAR <-> py_eq_int q 1 = true.
Proof.
  intros Hq. unfold category_of.
  destruct q as [| [] | z | f | |]; cbn [py_eq_int float_0_or_1] in *;
    try (split; discriminate); try done.
  - destruct (Z.eqb_spec z 0) as [->|]; [split; discriminate|].
    destruct (z =? 1)%Z; [done | split; discriminate].
  - apply orb_false_elim in Hq as [-> ->]. split; discriminate.
Qed.

Lemma shortcut_writes_zero_plural (n : string) :
  shortcut_writes regpl n ZERO = shortcut_writes regpl n PLURAL.
Proof. reflexivity. Qed.

Lemma shortcut_writes_same (n : string) (q q' : pyval) :
  float_0_or_1 q = false -> float_0_or_1 q' = false ->
  py_eq_int q 1 = py_eq_int q' 1 ->
  shortcut_writes regpl n (category_of q) = shortcut_writes regpl n (category_of q').
Proof.
  intros Hq Hq' E.
  pose proof (category_of_one q Hq) as H. pose proof (category_of_one q' Hq') as H'.
  rewrite <- E in H'. destruct (py_eq_int q 1).
  - by rewrite (proj2 H eq_refl), (proj2 H' eq_refl).
  - destruct (category_of q), (category_of q');
      try done; try (by apply shortcut_writes_zero_plural);
      try (by symmetry; apply shortcut_writes_zero_plural);
      try (by discriminate (proj1 H eq_refl));
      by discriminate (proj1 H' eq_refl).
Qed.

(** X8. The shortcuts only distinguish "one" from "not one": every
    shortcut has the same form for the null and the plural category, so
    two calls on requests without candidate strings, whose test values
    agree position by position on being equal to 1, return the same
    dictionary. *)
Theorem shortcuts_one_or_not (qs qs' : list pyval) (kw : option string) :
  Forall (fun q => float_0_or_1 q = false) qs ->
  Forall (fun q => float_0_or_1 q = false) qs' ->
  Forall2 (fun q q' => py_eq_int q 1 = py_eq_int q' 1) qs qs' ->
  exists m,
    set regpl ((fun q => [q]) <$> qs) kw = Ret m /\
    set regpl ((fun q => [q]) <$> qs') kw = Ret m.
Proof.
  intros Hq Hq' H2.
  assert (Hrun : forall l : list pyval,
    Forall (fun q => float_0_or_1 q = false) l ->
    set regpl ((fun q => [q]) <$> l) kw
    = Ret (apply_writes
             (all_writes regpl (sep_of kw) 0 (resolved ((fun q => (q, [])) <$> l))) ∅)).
  { intros l Hl.
    replace ((fun q : pyval => [q]) <$> l)
      with (tuples ((fun q : pyval => (q, @nil string)) <$> l))
      by (unfold tuples; by rewrite <- list_fmap_compose).
    apply set_run.
    - apply Forall_fmap. by eapply Forall_impl.
    - right. apply Forall_fmap. by apply Forall_true. }
  eexists. split; [by apply Hrun|]. rewrite Hrun by done. do 2 f_equal.
  generalize 0. clear Hrun.
  induction H2 as [|q q' qs qs' E _ IH]; intros i; [done|].
  apply Forall_cons in Hq as [Hq Hqs]. apply Forall_cons in Hq' as [Hq' Hqs'].
  cbn [resolved fmap list_fmap all_writes fst snd]. unfold request_writes.
  rewrite (shortcut_writes_same _ q q') by done. f_equal. by apply IH.
Qed.

Lemma shortcuts_one_or_not_witness :
  Forall (fun q => float_0_or_1 q = false) [PyInt 0; PyInt 1] /\
  Forall (fun q => float_0_or_1 q = false) [PyStr "many"; PyBool true] /\
  Forall2 (fun q q' => py_eq_int q 1 = py_eq_int q' 1)
    [PyInt 0; PyInt 1] [PyStr "many"; PyBool true] /\
  exists m,
    set regpl [[PyInt 0]; [PyInt 1]] None = Ret m /\
    set regpl [[PyStr "many"]; [PyBool true]] None = Ret m.
Proof.
  assert (H1 : Forall (fun q => float_0_or_1 q = false) [PyInt 0; PyInt 1])
    by (repeat constructor).
  assert (H2 : Forall (fun q => float_0_or_1 q = false) [PyStr "many"; PyBool true])
    by (repeat constructor).
  assert (H3 : Forall2 (fun q q' => py_eq_int q 1 = py_eq_int q' 1)
                 [PyInt 0; PyInt 1] [PyStr "many"; PyBool true])
    by (repeat constructor).
  do 3 (split; [assumption|]).
  exact (shortcuts_one_or_not _ _ None H1 H2 H3).
Defined.

Lemma form_of_idem (q : pyval) : form_of (form_of q) = form_of q.
Proof. unfold form_of at 2 3. by destruct (py_in q [0; 1]%Z) eqn:E; cbn; [unfold form_of; rewrite E|]. Qed.

(** X9. [set] looks at a test value only through the form it computes
    from it: in any call, replacing every test value that is not equal to
    0 or 1 (a string, [None], a tuple, any other number) by the integer 2
    leaves the outcome, dictionary or exception, unchanged. *)
Theorem test_value_as_form (cat : list (string * list string))
    (args : list (list pyval)) (kw : option string) :
  set cat (with_form <$> args) kw = set cat args kw.
Proof.
  unfold set. generalize (∅ : dict) 0.
  induction args as [|v args IH]; intros result i; [done|].
  cbn [fmap list_fmap set_loop].
  replace (set_body cat (sep_of kw) i (with_form v) result)
    with (set_body cat (sep_of kw) i v result).
  - destruct (set_body cat (sep_of kw) i v result); [apply IH | done].
  - destruct v as [|q rest]; [done|]. symmetry. apply set_body_form, form_of_idem.
Qed.

(** ** Splitting *)

Lemma split_max_join (maxsplit : nat) (sep p : string) :
  join sep (split_max maxsplit sep p) = p /\
  1 <= length (split_max maxsplit sep p) <= S maxsplit.
Proof.
  revert p. induction maxsplit as [|k IH]; intros p; cbn [split_max].
  - split; [done | cbn; lia].
  - destruct (cut sep p) as [[a b]|] eqn:Hcut; [|split; [done | cbn; lia]].
    destruct (IH b) as [Hjoin Hlen]. split; [|cbn [length]; lia].
    apply cut_sound in Hcut as ->.
    destruct (split_max k sep b) as [|f fields] eqn:E; [cbn in Hlen; lia|].
    cbn [join] in *. destruct fields; by rewrite Hjoin.
Qed.

(** X10. Splitting a candidate string loses nothing: line 240 yields
    between one and three fields, and the fields joined by the separator
    give back the candidate string. *)
Theorem split_join (p sep : string) (fields : list string) :
  split p sep 2 = Ret fields ->
  join sep fields = p /\ 1 <= length fields <= 3.
Proof.
  unfold split. destruct sep as [|x sep]; [done|]. intros [= <-].
  exact (split_max_join 2 (String x sep) p).
Qed.

Lemma split_join_witness :
  split "aaa<x>bbb<x>ccc<x>ddd" "<x>" 2 = Ret ["aaa"; "bbb"; "ccc<x>ddd"] /\
  join "<x>" ["aaa"; "bbb"; "ccc<x>ddd"] = "aaa<x>bbb<x>ccc<x>ddd" /\
  1 <= length ["aaa"; "bbb"; "ccc<x>ddd"] <= 3.
Proof.
  assert (H : split "aaa<x>bbb<x>ccc<x>ddd" "<x>" 2 = Ret ["aaa"; "bbb"; "ccc<x>ddd"])
    by reflexivity.
  split; [exact H|]. exact (split_join _ _ _ H).
Defined.

(** X11. For a string candidate, a non-empty separator and a form that
    designates a category, the body of the loop over the candidates never
    raises: it writes exactly the entry 'P' + n + sep + p, and the value
    it writes is always one of the fields of the candidate. *)
Theorem candidate_step_field (sep n : string) (form : pyval) (c : category)
    (result : dict) (p : string) :
  sep <> "" ->
  form_category form = Some c ->
  exists fields x,
    split p sep 2 = Ret fields /\
    x ∈ fields /\
    candidate_step sep n form result (PyStr p)
    = Ret (<["P" +:+ n +:+ sep +:+ p := x]> result).
Proof.
  intros Hsep Hc. exists (split_max 2 sep p), (pick c (fields3 sep p)).
  split; [by destruct sep|]. split; [|by apply candidate_step_run].
  unfold fields3, arrange. cbn [split_max].
  destruct (cut sep p) as [[a b]|]; [|destruct c; by left].
  destruct (cut sep b) as [[a' b']|]; destruct c; cbn; set_solver.
Qed.

Lemma candidate_step_field_witness :
  "|" <> "" /\
  form_category (PyBool true) = Some SINGULAR /\
  exists fields x,
    split "man|men" "|" 2 = Ret fields /\
    x ∈ fields /\
    candidate_step "|" "0" (PyBool true) ∅ (PyStr "man|men")
    = Ret (<["P" +:+ "0" +:+ "|" +:+ "man|men" := x]> ∅).
Proof.
  assert (H1 : "|" <> "") by discriminate.
  assert (H2 : form_category (PyBool true) = Some SINGULAR) by reflexivity.
  split; [exact H1|]. split; [exact H2|].
  exact (candidate_step_field "|" "0" (PyBool true) SINGULAR ∅ "man|men" H1 H2).
Defined.

(** ** Listing an extended table *)

(** X12. [shortcuts()] works on whatever ASCII table the module holds,
    as long as every entry has three forms: it returns [None], leaves the
    table as it is, keeps what was printed before and appends the header
    and two lines per entry, so the output grows by 2 * len(regpl) + 1
    lines. *)
Theorem shortcuts_any_table (w : world) :
  Forall len3 (w_regpl w) ->
  Forall ascii_entry (w_regpl w) ->
  exists w',
    shortcuts w = Ret (PyNone, w') /\
    w_regpl w' = w_regpl w /\
    w_stdout w'
    = w_stdout w ++ header :: (shortcut_line <$> effective (w_regpl w)) /\
    length (w_stdout w') = length (w_stdout w) + 2 * length (w_regpl w) + 1.
Proof.
  intros Hcat _. eexists. split; [by apply shortcuts_run_world|].
  cbn [w_regpl w_stdout]. split; [done|]. split; [done|].
  rewrite length_app. cbn [length]. rewrite length_fmap.
  assert (length (effective (w_regpl w)) = 2 * length (w_regpl w)) as ->; [|lia].
  unfold effective. clear Hcat. induction (w_regpl w) as [|e cat IH]; [done|].
  cbn [flat_map length app]. rewrite IH. lia.
Qed.

Lemma shortcuts_any_table_witness :
  Forall len3 [("man", ["men"; "man"; "men"])] /\
  Forall ascii_entry [("man", ["men"; "man"; "men"])] /\
  exists w',
    shortcuts {| w_regpl := [("man", ["men"; "man"; "men"])]; w_stdout := ["before"] |}
    = Ret (PyNone, w') /\
    w_stdout w' = ["before"; header; "[man: men, man, men]"; "[MAN: MEN, MAN, MEN]"].
Proof.
  assert (H : Forall len3 [("man", ["men"; "man"; "men"])]) by (repeat constructor).
  assert (Ha : Forall ascii_entry [("man", ["men"; "man"; "men"])])
    by (repeat constructor).
  split; [exact H|]. split; [exact Ha|].
  destruct (shortcuts_any_table
              {| w_regpl := [("man", ["men"; "man"; "men"])]; w_stdout := ["before"] |}
              H Ha)
    as (w' & Hrun & _ & Hout & _).
  exists w'. split; [exact Hrun|]. exact Hout.
Defined.

(** X13. An entry of the table with fewer than three forms makes
    [shortcuts()] raise [IndexError] when the listing reaches it. *)
Theorem shortcuts_short_entry (w : world) (good : list (string * list string))
    (r : string) (forms : list string) (rest : list (string * list string)) :
  w_regpl w = good ++ (r, forms) :: rest ->
  Forall len3 good ->
  length forms < 3 ->
  shortcuts w = Raise IndexError.
Proof.
  intros Hw Hgood Hshort. unfold shortcuts. cbn [print w_regpl]. rewrite Hw.
  rewrite py_for_app, shortcuts_loop_run by done. cbn [mbind py_bind py_for].
  unfold shortcuts_step.
  destruct forms as [|a [|b [|c l]]]; cbn in Hshort; try lia; done.
Qed.

Lemma shortcuts_short_entry_witness :
  w_regpl {| w_regpl := regpl ++ [("man", ["men"; "man"])]; w_stdout := [] |}
  = regpl ++ ("man", ["men"; "man"]) :: [] /\
  Forall len3 regpl /\
  length ["men"; "man"] < 3 /\
  shortcuts {| w_regpl := regpl ++ [("man", ["men"; "man"])]; w_stdout := [] |}
  = Raise IndexError.
Proof.
  assert (H1 : w_regpl {| w_regpl := regpl ++ [("man", ["men"; "man"])]; w_stdout := [] |}
               = regpl ++ ("man", ["men"; "man"]) :: []) by reflexivity.
  assert (H2 : Forall len3 regpl) by (repeat constructor).
  assert (H3 : length ["men"; "man"] < 3) by (cbn; lia).
  split; [exact H1|]. split; [exact H2|]. split; [exact H3|].
  exact (shortcuts_short_entry _ regpl "man" ["men"; "man"] [] H1 H2 H3).
Defined.

(** ** A candidate string that spells a shortcut key *)

(** X14. When a candidate string [p] of a request spells one of its
    shortcut keys ([sep + p] is the name of a shortcut, capitalized or
    not), the entry written for the candidate replaces the shortcut's:
    the returned dictionary holds under that key the field of [p]
    selected by the request's category. *)
Theorem shortcut_replaced (reqs : list (pyval * list string)) (kw : option string)
    (i : nat) (q : pyval) (cands : list string) (name : string)
    (forms : list string) (p : string) :
  Forall (fun r => float_0_or_1 r.1 = false) reqs ->
  sep_of kw <> "" ->
  reqs !! i = Some (q, cands) ->
  (name, forms) ∈ effective regpl ->
  p ∈ cands ->
  sep_of kw +:+ p = name ->
  exists m fields,
    set regpl (tuples reqs) kw = Ret m /\
    (s ← split p (sep_of kw) 2; normalize s) = Ret fields /\
    m !! ("P" +:+ str i +:+ name) = Some (pick (category_of q) fields).
Proof.
  intros Hreqs Hsep Hi Hname Hp E.
  exists (apply_writes (all_writes regpl (sep_of kw) 0 (resolved reqs)) ∅),
    (fields3 (sep_of kw) p).
  split; [apply set_run; [done | by left]|].
  split; [by apply split_normalize|].
  fold (key (str i) name). rewrite <- E.
  eapply lookup_candidate_at; [done.. |]. left. rewrite E.
  by apply (proj1 (Forall_forall _ _) effective_regpl_letters _ Hname).
Qed.

Lemma shortcut_replaced_witness :
  Forall (fun r : pyval * list string => float_0_or_1 r.1 = false)
    [(PyInt 2, ["is"]); (PyInt 1, [])] /\
  sep_of (Some "th") <> "" /\
  [(PyInt 2, ["is"]); (PyInt 1, @nil string)] !! 0 = Some (PyInt 2, ["is"]) /\
  ("this", ["these"; "this"; "these"]) ∈ effective regpl /\
  "is" ∈ ["is"] /\
  sep_of (Some "th") +:+ "is" = "this" /\
  exists m,
    set regpl [[PyInt 2; PyStr "is"]; [PyInt 1]] (Some "th") = Ret m /\
    m !! "P0this" = Some "is".
Proof.
  assert (H1 : Forall (fun r : pyval * list string => float_0_or_1 r.1 = false)
                 [(PyInt 2, ["is"]); (PyInt 1, [])]) by (repeat constructor).
  assert (H2 : sep_of (Some "th") <> "") by discriminate.
  assert (H3 : [(PyInt 2, ["is"]); (PyInt 1, @nil string)] !! 0
               = Some (PyInt 2, ["is"])) by reflexivity.
  assert (H4 : ("this", ["these"; "this"; "these"]) ∈ effective regpl)
    by (apply (bool_decide_unpack _); by vm_compute).
  assert (H5 : "is" ∈ ["is"]) by (by left).
  assert (H6 : sep_of (Some "th") +:+ "is" = "this") by reflexivity.
  do 6 (split; [assumption|]).
  destruct (shortcut_replaced _ (Some "th") 0 _ _ _ _ "is" H1 H2 H3 H4 H5 H6)
    as (m & fields & Hm & Hf & Hv).
  exists m. split; [exact Hm|].
  vm_compute in Hf. injection Hf as <-. exact Hv.
Defined.
